(** * chaosblade-spec-go, package [channel]: [MockLocalChannel.RunScript]

    A shallow embedding of [channel/local_mock.go].  [RunScript] runs a
    packaged script inside the namespaces of a target process: it composes
    the flags of the namespace-entry helper, stages the package, makes the
    entry point executable, wraps it in a terminal recording and decodes the
    combined output of the subprocess into a [Response].

    Layout:
    - [gostrings], [gopath], [gofmt]: the pieces of Go's standard library
      the function uses ([strings.Split], [strings.TrimSpace], [path.Clean],
      [path.Join], [path.Base], [filepath.Dir], [fmt.Sprintf]), as executable
      functions on byte strings;
    - [spec]: the [Response] and [CodeType] of package [spec];
    - [channel]: the host interface (filesystem, clock, subprocesses), the
      monad that threads the host state, the event trace and early returns,
      and [RunScript] itself;
    - the theorems about [RunScript]. *)

From Stdlib Require Import String Ascii List ZArith Bool Lia.
From Stdlib Require Import DecimalString DecimalPos DecimalZ.
Import ListNotations.

Local Open Scope list_scope.
Local Open Scope string_scope.

Set Implicit Arguments.

(** ** Strings *)

Module gostrings.

(** [strings.Join(elems, sep)]. *)
Definition Join (elems : list string) (sep : string) : string :=
  String.concat sep elems.

(** [strings.Split(s, sep)] for a separator of one byte, the only way
    [RunScript] calls it ([sep = " "]).  The accumulator [cur] holds the
    bytes of the current field in reverse. *)
Fixpoint split_at (c : ascii) (cur : list ascii) (s : string) : list string :=
  match s with
  | EmptyString => [string_of_list_ascii (rev cur)]
  | String a rest =>
      if Ascii.eqb a c
      then string_of_list_ascii (rev cur) :: split_at c [] rest
      else split_at c (a :: cur) rest
  end.

Definition Split1 (s : string) (sep : ascii) : list string :=
  split_at sep [] s.

Definition rev_string (s : string) : string :=
  string_of_list_ascii (rev (list_ascii_of_string s)).

(** The Unicode [White_Space] code points, as [unicode.IsSpace] has them,
    in their UTF-8 encodings: one byte (tab, LF, VT, FF, CR, space), two
    bytes (U+0085, U+00A0) and three bytes (U+1680, U+2000..U+200A,
    U+2028, U+2029, U+202F, U+205F, U+3000). *)
Definition space1 (a : ascii) : bool :=
  let n := N_of_ascii a in
  ((9 <=? n) && (n <=? 13) || (n =? 32))%N.

Definition space2 (a b : ascii) : bool :=
  let x := N_of_ascii a in
  let y := N_of_ascii b in
  ((x =? 194) && ((y =? 133) || (y =? 160)))%N.

Definition space3 (a b c : ascii) : bool :=
  let x := N_of_ascii a in
  let y := N_of_ascii b in
  let z := N_of_ascii c in
  ((x =? 225) && (y =? 154) && (z =? 128)
   || (x =? 226) && (y =? 128)
      && ((128 <=? z) && (z <=? 138) || (z =? 168) || (z =? 169) || (z =? 175))
   || (x =? 226) && (y =? 129) && (z =? 159)
   || (x =? 227) && (y =? 128) && (z =? 128))%N.

(** [strings.TrimLeftFunc(s, unicode.IsSpace)]: drop encoded white space
    from the front. *)
Fixpoint trim_left (s : string) : string :=
  match s with
  | EmptyString => EmptyString
  | String a s1 =>
      if space1 a then trim_left s1 else
      match s1 with
      | EmptyString => s
      | String b s2 =>
          if space2 a b then trim_left s2 else
          match s2 with
          | EmptyString => s
          | String c s3 => if space3 a b c then trim_left s3 else s
          end
      end
  end.

(** The same from the back, on the reversed string: the encodings are read
    last byte first. *)
Fixpoint trim_left_rev (s : string) : string :=
  match s with
  | EmptyString => EmptyString
  | String a s1 =>
      if space1 a then trim_left_rev s1 else
      match s1 with
      | EmptyString => s
      | String b s2 =>
          if space2 b a then trim_left_rev s2 else
          match s2 with
          | EmptyString => s
          | String c s3 => if space3 c b a then trim_left_rev s3 else s
          end
      end
  end.

Definition trim_right (s : string) : string :=
  rev_string (trim_left_rev (rev_string s)).

(** [strings.TrimSpace(s)]. *)
Definition TrimSpace (s : string) : string :=
  trim_right (trim_left s).

End gostrings.

(** ** Slash-separated paths *)

Module gopath.

Definition slash : ascii := "/"%char.

(** One step of the lexical clean-up of [path.Clean]: [stack] holds the
    elements kept so far, innermost first. *)
Definition clean_step (rooted : bool) (stack : list string) (elem : string)
  : list string :=
  if String.eqb elem "" then stack
  else if String.eqb elem "." then stack
  else if String.eqb elem ".." then
    match stack with
    | top :: below => if String.eqb top ".." then elem :: stack else below
    | [] => if rooted then [] else [elem]
    end
  else elem :: stack.

(** [path.Clean(p)]: no empty and no [.] element, inner [..] removed with
    the element before it, [..] at the root dropped; ["."] for an empty
    result. *)
Definition Clean (p : string) : string :=
  let rooted := String.prefix "/" p in
  let kept := rev (fold_left (clean_step rooted) (gostrings.Split1 p slash) []) in
  let body := gostrings.Join kept "/" in
  if rooted then "/" ++ body
  else if String.eqb body "" then "." else body.

(** [path.Join(a, b)]: the non-empty elements joined by a slash and
    cleaned; the empty string when both are empty. *)
Definition Join (a b : string) : string :=
  let elems := filter (fun e => negb (String.eqb e "")) [a; b] in
  match elems with
  | [] => ""
  | _ => Clean (gostrings.Join elems "/")
  end.

(** Drop the slashes at the front of a (reversed) string. *)
Fixpoint drop_slashes (s : string) : string :=
  match s with
  | String a rest => if Ascii.eqb a slash then drop_slashes rest else s
  | EmptyString => EmptyString
  end.

(** The bytes before the first slash, and whether a slash was found
    together with what follows it. *)
Fixpoint until_slash (s : string) : string * option string :=
  match s with
  | EmptyString => (EmptyString, None)
  | String a rest =>
      if Ascii.eqb a slash then (EmptyString, Some rest)
      else let '(h, t) := until_slash rest in (String a h, t)
  end.

(** [path.Base(p)]: the last element of [p], trailing slashes removed. *)
Definition Base (p : string) : string :=
  if String.eqb p "" then "."
  else
    let r := drop_slashes (gostrings.rev_string p) in
    let last := gostrings.rev_string (fst (until_slash r)) in
    if String.eqb last "" then "/" else last.

(** [filepath.Dir(p)] on a Unix host: all but the last element, cleaned. *)
Definition Dir (p : string) : string :=
  match until_slash (gostrings.rev_string p) with
  | (_, None) => Clean ""
  | (_, Some before) => Clean (gostrings.rev_string (String slash before))
  end.

End gopath.

(** ** Values and formatting *)

Module gofmt.

(** An [*exec.Cmd]: the resolved path and the argument vector, whose first
    element is the program name, as [exec.CommandContext] builds it for a
    name that needs no look-up. *)
Record Cmd : Type := mkCmd { Path : string; Args : list string }.

(** [exec.CommandContext(ctx, name, arg...)]. *)
Definition CommandContext (name : string) (arg : list string) : Cmd :=
  {| Path := name; Args := name :: arg |}.

(** The [String] method of [exec.Cmd]: the path followed by the
    arguments. *)
Definition Cmd_String (c : Cmd) : string :=
  gostrings.Join (Path c :: tl (Args c)) " ".

(** The dynamic values an [interface{}] holds in this function: [nil], a
    string, an integer, a boolean, an [error] (by its [Error()] text) and
    a command. *)
Inductive Value : Type :=
| VNil
| VString (s : string)
| VInt (z : Z)
| VBool (b : bool)
| VError (msg : string)
| VCmd (c : Cmd).

Definition is_nil (v : Value) : bool :=
  match v with VNil => true | _ => false end.

Definition Cmd_eq_dec (c d : Cmd) : {c = d} + {c <> d}.
Proof.
  decide equality; [apply (list_eq_dec string_dec) | apply string_dec].
Defined.

Definition Value_eq_dec (v w : Value) : {v = w} + {v <> w}.
Proof.
  decide equality;
    [apply string_dec | apply Z.eq_dec | apply bool_dec | apply string_dec
    | apply Cmd_eq_dec].
Defined.

(** [v == w] on interface values. *)
Definition Value_eqb (v w : Value) : bool :=
  if Value_eq_dec v w then true else false.

Definition decimal (z : Z) : string := NilZero.string_of_int (Z.to_int z).

Definition bool_text (b : bool) : string := if b then "true" else "false".

Definition type_name (v : Value) : string :=
  match v with
  | VNil => "<nil>"
  | VString _ => "string"
  | VInt _ => "int"
  | VBool _ => "bool"
  | VError _ => "error"
  | VCmd _ => "*exec.Cmd"
  end.

(** The verb [%v]. *)
Definition fmt_v (v : Value) : string :=
  match v with
  | VNil => "<nil>"
  | VString s => s
  | VInt z => decimal z
  | VBool b => bool_text b
  | VError msg => msg
  | VCmd c => Cmd_String c
  end.

(** What [fmt] prints for an operand the verb does not accept:
    [%!verb(type=value)], and [%!verb(<nil>)] for [nil]. *)
Definition bad_verb (verb : ascii) (v : Value) : string :=
  match v with
  | VNil => "%!" ++ String verb "(<nil>)"
  | _ => "%!" ++ String verb ("(" ++ type_name v ++ "=" ++ fmt_v v ++ ")")
  end.

(** The verb [%s]: strings, and values with an [Error] or [String]
    method. *)
Definition fmt_s (v : Value) : string :=
  match v with
  | VString s => s
  | VError msg => msg
  | VCmd c => Cmd_String c
  | _ => bad_verb "s" v
  end.

(** The verb [%d]: integers. *)
Definition fmt_d (v : Value) : string :=
  match v with
  | VInt z => decimal z
  | _ => bad_verb "d" v
  end.

Definition fmt_verb (verb : ascii) (v : Value) : string :=
  if Ascii.eqb verb "s" then fmt_s v
  else if Ascii.eqb verb "v" then fmt_v v
  else if Ascii.eqb verb "d" then fmt_d v
  else bad_verb verb v.

(** Operands left over when the format is exhausted. *)
Definition extra (args : list Value) : string :=
  match args with
  | [] => ""
  | _ =>
      "%!(EXTRA "
      ++ gostrings.Join
           (map (fun v => match v with
                          | VNil => "<nil>"
                          | _ => type_name v ++ "=" ++ fmt_v v
                          end) args) ", "
      ++ ")"
  end.

(** [fmt.Sprintf(format, args...)] for formats built from plain bytes,
    [%%] and the flag-less verbs [%s], [%v] and [%d], the ones this code
    and the message templates of package [spec] are written with.  Other
    verbs, and [%d] on a non-integer, are rendered by [bad_verb], which
    for errors and commands only approximates Go's output. *)
Fixpoint Sprintf (format : string) (args : list Value) : string :=
  match format with
  | EmptyString => extra args
  | String c rest =>
      if Ascii.eqb c "%" then
        match rest with
        | EmptyString => "%!(NOVERB)" ++ extra args
        | String verb rest' =>
            if Ascii.eqb verb "%" then String "%" (Sprintf rest' args)
            else
              match args with
              | [] => "%!" ++ String verb ("(MISSING)" ++ Sprintf rest' [])
              | a :: args' => fmt_verb verb a ++ Sprintf rest' args'
              end
        end
      else String c (Sprintf rest args)
  end.


End gofmt.

Import gofmt.

(** ** Package [spec]: responses and code types *)

Module spec.

Module CodeType.
(** [spec.CodeType]: a status code and its message template. *)
Record t : Type := mk { Code : Z; Msg : string }.
End CodeType.

Module Response.
(** [spec.Response]. *)
Record t : Type := mk {
  Code : Z;
  Success : bool;
  Err : string;
  Result : Value
}.
End Response.

(** The constants of package [spec] that [RunScript] names.  Their values
    are declared outside [local_mock.go]; the development is parametric in
    them. *)
Record Constants : Type := mkConstants {
  OK : CodeType.t;
  CommandIllegal : CodeType.t;
  ChaosbladeFileNotFound : CodeType.t;
  FileNotExist : CodeType.t;
  OsCmdExecFailed : CodeType.t;
  ResultUnmarshalFailed : CodeType.t;
  spec_True : Value;
  BinPath : string;
  NSExecBin : string
}.

(** Modelled from the spec: [spec.ReturnSuccess], declared outside
    [local_mock.go].  A success [Response] (success flag set) "carrying
    the raw output as its result payload"; the code is the one of [OK]. *)
Definition ReturnSuccess (K : Constants) (result : Value) : Response.t :=
  {| Response.Code := CodeType.Code (OK K);
     Response.Success := true;
     Response.Err := "";
     Response.Result := result |}.

(** Modelled from the spec: [spec.ResponseFailWithFlags], declared outside
    [local_mock.go].  A failure [Response]: "success=false, a stable code,
    and a human-readable message embedding the underlying cause"; the
    message is the template of the code type filled with the flags. *)
Definition ResponseFailWithFlags (codeType : CodeType.t) (flags : list Value)
  : Response.t :=
  {| Response.Code := CodeType.Code codeType;
     Response.Success := false;
     Response.Err := Sprintf (CodeType.Msg codeType) flags;
     Response.Result := VNil |}.

(** Modelled from the spec: [spec.Decode(content, nil)], declared outside
    [local_mock.go].  Structured decoding of the output into a
    [Response]; output that is "not decodable as a structured Response"
    gives a failure whose code is the decode-failure sentinel
    [ResultUnmarshalFailed].  [unmarshal] is the JSON decoder: the decoded
    [Response], or the text of its error. *)
Definition Decode (K : Constants) (unmarshal : string -> string + Response.t)
    (content : string) : Response.t :=
  match unmarshal content with
  | inr resp => resp
  | inl err =>
      ResponseFailWithFlags (ResultUnmarshalFailed K) [VString content; VString err]
  end.

End spec.

Import spec.

(** ** Package [channel] *)

Module channel.

(** *** The execution context *)

(** A [context.Context] is a chain of key/value pairs, the innermost
    [WithValue] first; [ctx.Value(key)] is the innermost value under the
    key and [nil] when there is none. *)
Definition Context : Type := list (string * Value).

Fixpoint ctx_Value (ctx : Context) (key : string) : Value :=
  match ctx with
  | [] => VNil
  | (k, v) :: parent => if String.eqb k key then v else ctx_Value parent key
  end.

(** The context keys of package [channel], declared outside
    [local_mock.go]. *)
Record Keys : Type := mkKeys {
  NSTargetFlagName : string;
  NSPidFlagName : string;
  NSMntFlagName : string;
  NSNetFlagName : string
}.

(** *** The host *)

(** The error of a failed [os.Stat]: an [*fs.PathError] around an errno. *)
Inductive Errno : Type :=
| ENOENT
| EACCES
| ENOTDIR
| Errno_other (text : string).

Record PathError : Type := mkPathError { Op : string; Path : string; Err : Errno }.

Definition Errno_Error (e : Errno) : string :=
  match e with
  | ENOENT => "no such file or directory"
  | EACCES => "permission denied"
  | ENOTDIR => "not a directory"
  | Errno_other text => text
  end.

(** The [Error] method of [fs.PathError]. *)
Definition PathError_Error (e : PathError) : string :=
  Op e ++ " " ++ Path e ++ ": " ++ Errno_Error (Err e).

(** [os.IsNotExist(err)]: false for [nil], true for [ENOENT] only. *)
Definition IsNotExist (err : option PathError) : bool :=
  match err with
  | Some e => match Err e with ENOENT => true | _ => false end
  | None => false
  end.

(** What [RunScript] asks of its surroundings, over a host state [St]
    (filesystem, process table, clock).  [isBladeCommand] and [UnTar] of
    this package and [util.IsExist], [util.GetProgramPath] are declared
    outside [local_mock.go]; the others are the Go runtime.  An [error]
    is [None] for [nil] and its [Error()] text otherwise. *)
Record Host (St : Type) : Type := mkHost {
  GOOS : string;
  GetProgramPath : string;
  isBladeCommand : string -> bool;
  IsExist : St -> string -> bool;
  UnixNano : St -> Z;
  UnTar : string -> string -> St -> option string * St;
  Stat : St -> string -> option PathError;
  CombinedOutput : Cmd -> St -> (string * option string) * St;
  json_Unmarshal : string -> string + Response.t
}.

(** The calls that leave [RunScript], in the order they happen. *)
Inductive Event : Type :=
| EvIsExist (path : string)
| EvNow
| EvUnTar (src dst : string)
| EvStat (path : string)
| EvRun (cmd : Cmd)
| EvDebugf (msg : string).

Record World (St : Type) : Type := mkWorld { host : St; trace : list Event }.

Section Monad.
Variable St : Type.

(** A computation over the world that either returns from [RunScript]
    with a [Response] ([inl]) or goes on with a value ([inr]). *)
Definition M (A : Type) : Type :=
  World St -> (Response.t + A) * World St.

Definition ret {A} (a : A) : M A := fun w => (inr a, w).

Definition bind {A B} (m : M A) (k : A -> M B) : M B :=
  fun w =>
    match m w with
    | (inl r, w') => (inl r, w')
    | (inr a, w') => k a w'
    end.

(** Go's [return r]. *)
Definition Return {A} (r : Response.t) : M A := fun w => (inl r, w).

Definition emit (e : Event) : M unit :=
  fun w => (inr tt, {| host := host w; trace := trace w ++ [e]%list |}).

(** Read the host state. *)
Definition ask {A} (f : St -> A) : M A := fun w => (inr (f (host w)), w).

(** Run a host operation that changes the state. *)
Definition act {A} (f : St -> A * St) : M A :=
  fun w => let '(a, s) := f (host w) in
           (inr a, {| host := s; trace := trace w |}).

(** The function body as a whole: both exits give the result. *)
Definition run (m : M Response.t) (w : World St) : Response.t * World St :=
  match m w with
  | (inl r, w') => (r, w')
  | (inr r, w') => (r, w')
  end.
End Monad.

Arguments ret {St A} a.
Arguments bind {St A B} m k.
Arguments Return {St A} r.
Arguments emit {St} e.
Arguments ask {St A} f.
Arguments act {St A} f.
Arguments run {St} m w.

Declare Scope go_scope.
Notation "x <- m ;; k" := (bind m (fun x => k))
  (at level 61, m at next level, right associativity) : go_scope.
Notation "' pat <- m ;; k" := (bind m (fun x => match x with pat => k end))
  (at level 61, pat pattern, m at next level, right associativity) : go_scope.
Notation "m ;; k" := (bind m (fun _ => k))
  (at level 61, right associativity) : go_scope.
Local Open Scope go_scope.

Section RunScript.
Variable St : Type.
Variable K : Constants.
Variable N : Keys.
Variable H : Host St.

Definition util_IsExist (path : string) : M St bool :=
  emit (EvIsExist path) ;; ask (fun s => IsExist H s path).

Definition time_Now_UnixNano : M St Z :=
  emit EvNow ;; ask (UnixNano H).

Definition call_UnTar (src dst : string) : M St (option string) :=
  emit (EvUnTar src dst) ;; act (UnTar H src dst).

Definition os_Stat (path : string) : M St (option PathError) :=
  emit (EvStat path) ;; ask (fun s => Stat H s path).

Definition cmd_CombinedOutput (cmd : Cmd) : M St (string * option string) :=
  emit (EvRun cmd) ;; act (CombinedOutput H cmd).

Definition log_Debugf (format : string) (args : list Value) : M St unit :=
  emit (EvDebugf (Sprintf format args)).

(** The byte of a double quote. *)
Definition dquote : string :=
  String (Ascii false true false false false true false false) EmptyString.

(** An [error] as an operand of [fmt]. *)
Definition error_value (err : option string) : Value :=
  match err with
  | Some text => VError text
  | None => VNil
  end.

(** Lines 122-134: the flags of the namespace-entry helper. *)
Definition ns_flags (ctx : Context) (pid : Value) : string :=
  let ns_script := Sprintf "-t %s" [pid] in
  let ns_script :=
    if Value_eqb (ctx_Value ctx (NSPidFlagName N)) (spec_True K)
    then Sprintf "%s -p" [VString ns_script] else ns_script in
  let ns_script :=
    if Value_eqb (ctx_Value ctx (NSMntFlagName N)) (spec_True K)
    then Sprintf "%s -m" [VString ns_script] else ns_script in
  let ns_script :=
    if Value_eqb (ctx_Value ctx (NSNetFlagName N)) (spec_True K)
    then Sprintf "%s -n" [VString ns_script] else ns_script in
  ns_script.

(** Lines 173-191: the entry point wrapped in a terminal recording; the
    result is the value of [args] at line 193. *)
Definition recording (uid scriptMain args : string) : string :=
  let time := "/tmp/" ++ uid ++ ".time" in
  let out := "/tmp/" ++ uid ++ ".out" in
  if String.eqb (GOOS H) "darwin" then
    let scriptMain := "script  -t 2>" ++ time ++ " -a " ++ out ++ " " ++ scriptMain in
    if negb (String.eqb args "") then scriptMain ++ " " ++ args
    else scriptMain
  else
    let scriptMain :=
      "script  -t 2>" ++ time ++ " -a " ++ out ++ "  -c  " ++ dquote ++ scriptMain in
    let args :=
      if negb (String.eqb args "") then scriptMain ++ " " ++ args
      else scriptMain in
    args ++ dquote.

(** Lines 200-210: the response for the output and error of the
    subprocess [cmd]. *)
Definition decode_output (cmd : Cmd) (outMsg : string) (err : option string)
  : Response.t :=
  let otherwise :=
    match err with
    | None => ReturnSuccess K (VString outMsg)
    | Some text =>
        let outMsg := outMsg ++ " " ++ text in
        ResponseFailWithFlags (OsCmdExecFailed K) [VCmd cmd; VString outMsg]
    end in
  if negb (String.eqb (gostrings.TrimSpace outMsg) "") then
    let resp := Decode K (json_Unmarshal H) outMsg in
    if negb (Z.eqb (Response.Code resp) (CodeType.Code (ResultUnmarshalFailed K)))
    then resp
    else otherwise
  else otherwise.

(** Lines 117-195: everything up to the command of the script itself. *)
Definition prepare (ctx : Context) (script args uid : string) : M St Cmd :=
  let pid := ctx_Value ctx (NSTargetFlagName N) in
  if is_nil pid then
    Return (ResponseFailWithFlags (CommandIllegal K) [VString script])
  else
  let ns_script := ns_flags ctx pid in
  let isBladeCommand := isBladeCommand H script in
  missing <- (if isBladeCommand
              then exist <- util_IsExist script ;; ret (negb exist)
              else ret false) ;;
  if missing then
    Return (ResponseFailWithFlags (ChaosbladeFileNotFound K) [VString script])
  else
  now <- time_Now_UnixNano ;;
  let tarDistDir := gopath.Dir script ++ "/" ++ Sprintf "%d" [VInt now] in
  _ <- call_UnTar script tarDistDir ;;
  let scriptMain := tarDistDir ++ "/main" in
  err <- os_Stat scriptMain ;;
  if IsNotExist err then
    let outMessage :=
      " script files must contain main file "
      ++ match err with Some e => PathError_Error e | None => "" end in
    Return (ResponseFailWithFlags (FileNotExist K) [VString outMessage])
  else
  let ns_script := Sprintf "%s -- /bin/sh -c" [VString ns_script] in
  let programPath := GetProgramPath H in
  let programPath :=
    if negb (String.eqb (gopath.Base programPath) (BinPath K))
    then gopath.Join programPath (BinPath K) else programPath in
  let bin := gopath.Join programPath (NSExecBin K) in
  log_Debugf ("Command: %s %s " ++ dquote ++ "%s" ++ dquote)
             [VString bin; VString ns_script; VString args] ;;
  let cmdChmod := CommandContext bin ["chmod 777 " ++ scriptMain] in
  '(outputChmod, err) <- cmd_CombinedOutput cmdChmod ;;
  let outMsgChmod := outputChmod in
  log_Debugf "Command Result, outputChmod: %v, err: %v"
             [VString outMsgChmod; error_value err] ;;
  match err with
  | Some text =>
      let outMsgChmod := outMsgChmod ++ " " ++ text in
      Return (ResponseFailWithFlags (OsCmdExecFailed K)
                [VCmd cmdChmod; VString outMsgChmod])
  | None =>
      let args := recording uid scriptMain args in
      let split := gostrings.Split1 ns_script " " in
      ret (CommandContext bin (split ++ [args])%list)
  end.

(** [MockLocalChannel.RunScript(ctx, script, args, uid)], lines 116-211. *)
Definition RunScript (ctx : Context) (script args uid : string)
  : World St -> Response.t * World St :=
  run (cmd <- prepare ctx script args uid ;;
       '(output, err) <- cmd_CombinedOutput cmd ;;
       let outMsg := output in
       log_Debugf "Command Result, output: %v, err: %v"
                  [VString outMsg; error_value err] ;;
       ret (decode_output cmd outMsg err)).

(** *** Names for the intermediate values of [RunScript] *)

(** Whether a namespace was requested: the context value under the key is
    [spec.True]. *)
Definition requested (ctx : Context) (key : string) : bool :=
  Value_eqb (ctx_Value ctx key) (spec_True K).

Definition flag (b : bool) (text : string) : string := if b then text else "".

(** Line 137: the package is rejected when it is a blade command that does
    not exist. *)
Definition rejected (script : string) (s : St) : bool :=
  isBladeCommand H script && negb (IsExist H s script).

(** Line 145: the staging directory, for the clock of the host state. *)
Definition tarDistDir (script : string) (s : St) : string :=
  gopath.Dir script ++ "/" ++ decimal (UnixNano H s).

(** Line 148: the entry point. *)
Definition scriptMain (script : string) (s : St) : string :=
  tarDistDir script s ++ "/main".

(** Lines 156-160: the namespace-entry helper. *)
Definition bin : string :=
  gopath.Join
    (if negb (String.eqb (gopath.Base (GetProgramPath H)) (BinPath K))
     then gopath.Join (GetProgramPath H) (BinPath K)
     else GetProgramPath H)
    (NSExecBin K).

(** Line 164: the command of the chmod step. *)
Definition cmdChmod (script : string) (s : St) : Cmd :=
  CommandContext bin ["chmod 777 " ++ scriptMain script s].

(** Line 195: the command of the script. *)
Definition cmdScript (ctx : Context) (script args uid : string) (s : St) : Cmd :=
  CommandContext bin
    (gostrings.Split1
       (ns_flags ctx (ctx_Value ctx (NSTargetFlagName N)) ++ " -- /bin/sh -c") " "
     ++ [recording uid (scriptMain script s) args])%list.

(** The world once line 137 is evaluated: [util.IsExist] is called only
    for a blade command. *)
Definition probed (script : string) (w : World St) : World St :=
  if isBladeCommand H script
  then {| host := host w; trace := trace w ++ [EvIsExist script] |}
  else w.

(** The world after staging: the clock was read, the archive unpacked
    (leaving the host in state [s1]) and the entry point looked up. *)
Definition staged (script : string) (w : World St) (s1 : St) : World St :=
  {| host := s1;
     trace := trace (probed script w)
              ++ [EvNow;
                  EvUnTar script (tarDistDir script (host w));
                  EvStat (scriptMain script (host w))] |}.

(** The world after the chmod step, which printed [out], ended with [err]
    and left the host in state [s2]. *)
Definition normalized (ctx : Context) (script args : string) (w : World St)
    (s1 : St) (out : string) (err : option string) (s2 : St) : World St :=
  {| host := s2;
     trace := trace (staged script w s1)
              ++ [EvDebugf
                    (Sprintf ("Command: %s %s " ++ dquote ++ "%s" ++ dquote)
                       [VString bin;
                        VString (ns_flags ctx (ctx_Value ctx (NSTargetFlagName N))
                                 ++ " -- /bin/sh -c");
                        VString args]);
                  EvRun (cmdChmod script (host w));
                  EvDebugf
                    (Sprintf "Command Result, outputChmod: %v, err: %v"
                       [VString out; error_value err])] |}.

(** Two exits of [prepare] agree: the same early response or a command of
    the same program, and the same host state. *)
Definition same_exit (a b : (Response.t + Cmd) * World St) : Prop :=
  match fst a, fst b with
  | inl r, inl r' => r = r'
  | inr c, inr c' => gofmt.Path c = gofmt.Path c'
  | _, _ => False
  end
  /\ host (snd a) = host (snd b).

End RunScript.

(** The commands a trace ran, in order. *)
Fixpoint commands (events : list Event) : list Cmd :=
  match events with
  | [] => []
  | EvRun cmd :: rest => cmd :: commands rest
  | _ :: rest => commands rest
  end.

(** A host whose [UnTar] reports [f err] where the given one reports
    [err], with the same effect on the state. *)
Definition with_UnTar_result (St : Type) (f : option string -> option string)
    (H : Host St) : Host St :=
  {| GOOS := GOOS H;
     GetProgramPath := GetProgramPath H;
     isBladeCommand := isBladeCommand H;
     IsExist := IsExist H;
     UnixNano := UnixNano H;
     UnTar := fun src dst s => let '(err, s') := UnTar H src dst s in (f err, s');
     Stat := Stat H;
     CombinedOutput := CombinedOutput H;
     json_Unmarshal := json_Unmarshal H |}.

End channel.

Import channel.

(** ** A concrete host

    The theorems below hold for every table of constants and every host.
    To run the model on concrete inputs this section fixes one of each: a
    table in the style of package [spec], and a host whose state is the
    list of existing paths and a clock. *)

Module sample.

Definition K : Constants :=
  {| OK := CodeType.mk 200 "success";
     CommandIllegal := CodeType.mk 49000 "illegal command, err: %v";
     ChaosbladeFileNotFound := CodeType.mk 51000 "`%s`: chaosblade file not found";
     FileNotExist := CodeType.mk 61001 "`%s`: not exist";
     OsCmdExecFailed := CodeType.mk 63061 "`%s`: cmd exec failed, err: %v";
     ResultUnmarshalFailed := CodeType.mk 65000 "`%s`: exec result unmarshal failed, err: %v";
     spec_True := VString "true";
     BinPath := "bin";
     NSExecBin := "nsexec" |}.

Definition N : Keys :=
  {| NSTargetFlagName := "ns_target";
     NSPidFlagName := "ns_pid";
     NSMntFlagName := "ns_mnt";
     NSNetFlagName := "ns_net" |}.

Record State : Type := mkState { files : list string; clock : Z }.

Definition exists_in (s : State) (path : string) : bool :=
  existsb (String.eqb path) (files s).

(** Unpacking puts the [entries] of the archive under the destination
    when the archive exists, and fails when it does not. *)
Definition untar (entries : list string) (src dst : string) (s : State)
  : option string * State :=
  if exists_in s src
  then (None, {| files := app (files s) (map (fun e => dst ++ "/" ++ e) entries);
                 clock := clock s |})
  else (Some ("open " ++ src ++ ": no such file or directory"), s).

Definition stat (s : State) (path : string) : option PathError :=
  if exists_in s path then None
  else Some {| Op := "stat"; Path := path; Err := ENOENT |}.

(** A decoder that knows one payload, [{code:200}], and rejects the
    rest. *)
Definition done : Response.t :=
  {| Response.Code := 200; Response.Success := true;
     Response.Err := ""; Response.Result := VString "done" |}.

Definition unmarshal (content : string) : string + Response.t :=
  if String.eqb content "{code:200}" then inr done
  else inl "invalid character".

(** The host: the archive at [src] holds [entries]; a subprocess answers
    by [answer] and leaves the state as it is. *)
Definition host (goos : string) (blade : string -> bool) (entries : list string)
    (answer : Cmd -> string * option string) : Host State :=
  {| GOOS := goos;
     GetProgramPath := "/opt/chaosblade";
     isBladeCommand := blade;
     IsExist := exists_in;
     UnixNano := clock;
     UnTar := untar entries;
     Stat := stat;
     CombinedOutput := fun cmd s => (answer cmd, s);
     json_Unmarshal := unmarshal |}.

Definition is_blade (script : string) : bool :=
  String.eqb (gopath.Base script) "blade".

(** The chmod step succeeds silently; the script prints [out] and ends
    with [err]. *)
Definition answers (out : string) (err : option string) (cmd : Cmd)
  : string * option string :=
  match Args cmd with
  | [_; _] => ("", None)
  | _ => (out, err)
  end.

Definition linux (entries : list string) (out : string) (err : option string)
  : Host State :=
  host "linux" is_blade entries (answers out err).

Definition start : World State :=
  {| channel.host := {| files := ["/tmp/pkg.tar"]; clock := 1700000000000000000 |};
     trace := [] |}.

(** pid 1234 with the mount and network namespaces requested. *)
Definition ctx : Context :=
  [("ns_net", VString "true"); ("ns_mnt", VString "true");
   ("ns_target", VString "1234")].

End sample.

(** ** The mock channel *)

Module mockchannel.

(** [MockLocalChannel], lines 36-48: the script path and one function field
    per query.  A result [([]string, error)] is a list with an optional
    error text. *)
Record MockLocalChannel : Type := mkMockLocalChannel {
  ScriptPath : string;
  RunFunc : Context -> string -> string -> Response.t;
  GetPidsByProcessCmdNameFunc : string -> Context -> list string * option string;
  GetPidsByProcessNameFunc : string -> Context -> list string * option string;
  GetPsArgsFunc : Context -> string;
  IsCommandAvailableFunc : Context -> string -> bool;
  ProcessExistsFunc : string -> bool * option string;
  GetPidUserFunc : string -> string * option string;
  GetPidsByLocalPortsFunc : Context -> list string -> list string * option string;
  GetPidsByLocalPortFunc : Context -> string -> list string * option string
}.

(** Lines 213-239: the default functions. *)
Definition defaultGetPidsByProcessCmdNameFunc (processName : string) (ctx : Context)
  : list string * option string := ([], None).

Definition defaultGetPidsByProcessNameFunc (processName : string) (ctx : Context)
  : list string * option string := ([], None).

Definition defaultGetPsArgsFunc (ctx : Context) : string := "-eo user,pid,ppid,args".

Definition defaultIsCommandAvailableFunc (ctx : Context) (commandName : string)
  : bool := false.

Definition defaultProcessExistsFunc (pid : string) : bool * option string :=
  (false, None).

Definition defaultGetPidUserFunc (pid : string) : string * option string :=
  ("admin", None).

Definition defaultGetPidsByLocalPortsFunc (ctx : Context) (localPorts : list string)
  : list string * option string := ([], None).

Definition defaultGetPidsByLocalPortFunc (ctx : Context) (localPort : string)
  : list string * option string := ([], None).

Definition defaultRunFunc (K : Constants) (ctx : Context) (script args : string)
  : Response.t := ReturnSuccess K (VString "success").

(** [NewMockLocalChannel()], lines 50-63; [binPath] is the value of
    [util.GetBinPath()], declared outside [local_mock.go]. *)
Definition NewMockLocalChannel (K : Constants) (binPath : string) : MockLocalChannel :=
  {| ScriptPath := binPath;
     RunFunc := defaultRunFunc K;
     GetPidsByProcessCmdNameFunc := defaultGetPidsByProcessCmdNameFunc;
     GetPidsByProcessNameFunc := defaultGetPidsByProcessNameFunc;
     GetPsArgsFunc := defaultGetPsArgsFunc;
     IsCommandAvailableFunc := defaultIsCommandAvailableFunc;
     ProcessExistsFunc := defaultProcessExistsFunc;
     GetPidUserFunc := defaultGetPidUserFunc;
     GetPidsByLocalPortsFunc := defaultGetPidsByLocalPortsFunc;
     GetPidsByLocalPortFunc := defaultGetPidsByLocalPortFunc |}.

(** The methods, lines 65-114. *)
Definition Name (l : MockLocalChannel) : string := "mock".

Definition GetPidsByProcessCmdName (mlc : MockLocalChannel) (processName : string)
    (ctx : Context) : list string * option string :=
  GetPidsByProcessCmdNameFunc mlc processName ctx.

Definition GetPidsByProcessName (mlc : MockLocalChannel) (processName : string)
    (ctx : Context) : list string * option string :=
  GetPidsByProcessNameFunc mlc processName ctx.

Definition GetPsArgs (mlc : MockLocalChannel) (ctx : Context) : string :=
  GetPsArgsFunc mlc ctx.

Definition IsAlpinePlatform (mlc : MockLocalChannel) (ctx : Context) : bool := false.

Definition IsAllCommandsAvailable (mlc : MockLocalChannel) (ctx : Context)
    (commandNames : list string) : option Response.t * bool :=
  (None, false).

Definition IsCommandAvailable (mlc : MockLocalChannel) (ctx : Context)
    (commandName : string) : bool :=
  IsCommandAvailableFunc mlc ctx commandName.

Definition ProcessExists (mlc : MockLocalChannel) (pid : string)
  : bool * option string :=
  ProcessExistsFunc mlc pid.

Definition GetPidUser (mlc : MockLocalChannel) (pid : string)
  : string * option string :=
  GetPidUserFunc mlc pid.

Definition GetPidsByLocalPorts (mlc : MockLocalChannel) (ctx : Context)
    (localPorts : list string) : list string * option string :=
  GetPidsByLocalPortsFunc mlc ctx localPorts.

Definition GetPidsByLocalPort (mlc : MockLocalChannel) (ctx : Context)
    (localPort : string) : list string * option string :=
  GetPidsByLocalPortFunc mlc ctx localPort.

Definition Run (mlc : MockLocalChannel) (ctx : Context) (script args : string)
  : Response.t :=
  RunFunc mlc ctx script args.

Definition GetScriptPath (mlc : MockLocalChannel) : string := ScriptPath mlc.

(** [RunScript] as a method: the receiver is not used. *)
Definition RunScript (St : Type) (K : Constants) (N : Keys) (H : Host St)
    (mlc : MockLocalChannel) (ctx : Context) (script args uid : string)
  : World St -> Response.t * World St :=
  channel.RunScript K N H ctx script args uid.

End mockchannel.

(** ** Further names used in the statements *)

(** Whether the byte [c] occurs in [s]. *)
Fixpoint has_byte (c : ascii) (s : string) : bool :=
  match s with
  | EmptyString => false
  | String a rest => Ascii.eqb a c || has_byte c rest
  end.

(** The flags of lines 124-134 as arguments, one per requested namespace. *)
Definition ns_args (K : Constants) (N : Keys) (ctx : Context) : list string :=
  ((if requested K ctx (NSPidFlagName N) then ["-p"] else [])
   ++ (if requested K ctx (NSMntFlagName N) then ["-m"] else [])
   ++ (if requested K ctx (NSNetFlagName N) then ["-n"] else []))%list.

(** A host like [H] whose JSON decoder is [unmarshal]. *)
Definition with_decoder (St : Type) (unmarshal : string -> string + Response.t)
    (H : Host St) : Host St :=
  {| GOOS := GOOS H;
     GetProgramPath := GetProgramPath H;
     isBladeCommand := isBladeCommand H;
     IsExist := IsExist H;
     UnixNano := UnixNano H;
     UnTar := UnTar H;
     Stat := Stat H;
     CombinedOutput := CombinedOutput H;
     json_Unmarshal := unmarshal |}.

(** A host like [H] whose [os.Stat] is [stat]. *)
Definition with_stat (St : Type) (stat : St -> string -> option PathError)
    (H : Host St) : Host St :=
  {| GOOS := GOOS H;
     GetProgramPath := GetProgramPath H;
     isBladeCommand := isBladeCommand H;
     IsExist := IsExist H;
     UnixNano := UnixNano H;
     UnTar := UnTar H;
     Stat := stat;
     CombinedOutput := CombinedOutput H;
     json_Unmarshal := json_Unmarshal H |}.

(** A host like [H] whose [UnTar] is [untar]. *)
Definition with_UnTar (St : Type) (untar : string -> string -> St -> option string * St)
    (H : Host St) : Host St :=
  {| GOOS := GOOS H;
     GetProgramPath := GetProgramPath H;
     isBladeCommand := isBladeCommand H;
     IsExist := IsExist H;
     UnixNano := UnixNano H;
     UnTar := untar;
     Stat := Stat H;
     CombinedOutput := CombinedOutput H;
     json_Unmarshal := json_Unmarshal H |}.

(** An extraction that writes [main] under the destination and then
    fails, as on an archive cut short after its first entry. *)
Definition untar_cut_short (src dst : string) (s : sample.State)
  : option string * sample.State :=
  (Some "unexpected EOF",
   {| sample.files := app (sample.files s) [dst ++ "/main"];
      sample.clock := sample.clock s |}).

(** The paths a trace probed with [util.IsExist], in order. *)
Fixpoint probes (events : list Event) : list string :=
  match events with
  | [] => []
  | EvIsExist path :: rest => path :: probes rest
  | _ :: rest => probes rest
  end.

(** ** The model on concrete inputs *)

Example Split1_flags :
  gostrings.Split1 "-t 1234 -m -n -- /bin/sh -c" " "
  = ["-t"; "1234"; "-m"; "-n"; "--"; "/bin/sh"; "-c"].
Proof. reflexivity. Qed.

Example Split1_empty : gostrings.Split1 "" " " = [""].
Proof. reflexivity. Qed.

Example Split1_double : gostrings.Split1 "a  b " " " = ["a"; ""; "b"; ""].
Proof. reflexivity. Qed.

Example TrimSpace_ascii :
  gostrings.TrimSpace (String "009" (String "010" " {ok}  ")) = "{ok}".
Proof. reflexivity. Qed.

Example TrimSpace_nbsp :
  gostrings.TrimSpace (String "194" (String "160" (String "a" (String "226" (String "128" (String "168" ""))))))
  = "a".
Proof. reflexivity. Qed.

Example Clean_examples :
  map gopath.Clean ["a/c"; "a//c"; "a/c/."; "a/c/b/.."; "/../a/c"; "/../a/b/../././/c"; ""; "../../x"; "/"; "a/../.."]
  = ["a/c"; "a/c"; "a/c"; "a/c"; "/a/c"; "/a/c"; "."; "../../x"; "/"; ".."].
Proof. reflexivity. Qed.

Example Join_examples :
  [gopath.Join "a" "b/c"; gopath.Join "a" ""; gopath.Join "" ""; gopath.Join "/opt/chaosblade" "bin"; gopath.Join "a/" "../b"]
  = ["a/b/c"; "a"; ""; "/opt/chaosblade/bin"; "b"].
Proof. reflexivity. Qed.

Example Base_examples :
  map gopath.Base ["/usr/bin/"; "/opt/chaosblade/bin"; "pkg.tar"; ""; "///"; "/"]
  = ["bin"; "bin"; "pkg.tar"; "."; "/"; "/"].
Proof. reflexivity. Qed.

Example Dir_examples :
  map gopath.Dir ["/tmp/pkg.tar"; "pkg.tar"; "/pkg.tar"; "a/b/"; ""; "/a//b/../c.tar"]
  = ["/tmp"; "."; "/"; "a/b"; "."; "/a"].
Proof. reflexivity. Qed.

Example Sprintf_pid : Sprintf "-t %s" [VString "1234"] = "-t 1234".
Proof. reflexivity. Qed.

Example Sprintf_int_pid : Sprintf "-t %s" [VInt 1234] = "-t %!s(int=1234)".
Proof. reflexivity. Qed.

Example Sprintf_nanos : Sprintf "%d" [VInt 1700000000000000000] = "1700000000000000000".
Proof. reflexivity. Qed.

Example Sprintf_log :
  Sprintf "Command Result, output: %v, err: %v" [VString "ok"; VNil]
  = "Command Result, output: ok, err: <nil>".
Proof. reflexivity. Qed.

Example Sprintf_extra_missing :
  [Sprintf "no verbs" [VString "a"; VInt 2]; Sprintf "%s and %s" [VString "a"]; Sprintf "100%%" []]
  = ["no verbs%!(EXTRA string=a, int=2)"; "a and %!s(MISSING)"; "100%"].
Proof. reflexivity. Qed.

Example RunScript_scenario :
  RunScript sample.K sample.N (sample.linux ["main"] "" None)
            sample.ctx "/tmp/pkg.tar" "" "u1" sample.start
  = (ReturnSuccess sample.K (VString ""),
     {| host := {| sample.files := ["/tmp/pkg.tar"; "/tmp/1700000000000000000/main"];
                   sample.clock := 1700000000000000000 |};
        trace :=
          [EvNow;
           EvUnTar "/tmp/pkg.tar" "/tmp/1700000000000000000";
           EvStat "/tmp/1700000000000000000/main";
           EvDebugf ("Command: /opt/chaosblade/bin/nsexec -t 1234 -m -n -- /bin/sh -c "
                     ++ dquote ++ dquote);
           EvRun (CommandContext "/opt/chaosblade/bin/nsexec"
                    ["chmod 777 /tmp/1700000000000000000/main"]);
           EvDebugf "Command Result, outputChmod: , err: <nil>";
           EvRun (CommandContext "/opt/chaosblade/bin/nsexec"
                    ["-t"; "1234"; "-m"; "-n"; "--"; "/bin/sh"; "-c";
                     "script  -t 2>/tmp/u1.time -a /tmp/u1.out  -c  "
                     ++ dquote ++ "/tmp/1700000000000000000/main" ++ dquote]);
           EvDebugf "Command Result, output: , err: <nil>"] |}).
Proof. vm_compute. reflexivity. Qed.

(** ** Facts about strings and formatting *)

Lemma append_nil_r (s : string) : s ++ "" = s.
Proof. induction s as [|a s IH]; simpl; [reflexivity | now rewrite IH]. Qed.

Lemma append_assoc (a b c : string) : (a ++ b) ++ c = a ++ (b ++ c).
Proof. induction a as [|x a IH]; simpl; [reflexivity | now rewrite IH]. Qed.

Lemma append_inj_l (a b c : string) : a ++ b = a ++ c -> b = c.
Proof.
  induction a as [|x a IH]; simpl; intros E; [exact E |].
  injection E as E. now apply IH.
Qed.

(** [Sprintf] at the formats of [RunScript]. *)
Lemma Sprintf_pid_ns (s : string) : Sprintf "%s -p" [VString s] = s ++ " -p".
Proof. reflexivity. Qed.

Lemma Sprintf_mnt_ns (s : string) : Sprintf "%s -m" [VString s] = s ++ " -m".
Proof. reflexivity. Qed.

Lemma Sprintf_net_ns (s : string) : Sprintf "%s -n" [VString s] = s ++ " -n".
Proof. reflexivity. Qed.

Lemma Sprintf_shell (s : string) :
  Sprintf "%s -- /bin/sh -c" [VString s] = s ++ " -- /bin/sh -c".
Proof. reflexivity. Qed.

Lemma Sprintf_target (pid : Value) : Sprintf "-t %s" [pid] = "-t " ++ fmt_s pid.
Proof. simpl. now rewrite append_nil_r. Qed.

Lemma Sprintf_decimal (z : Z) : Sprintf "%d" [VInt z] = decimal z.
Proof. simpl. now rewrite append_nil_r. Qed.


(** ** Properties of [RunScript] *)

Section Properties.
Variable St : Type.
Variable K : Constants.
Variable N : Keys.
Variable H : Host St.

Lemma is_nil_false (v : Value) : v <> VNil -> is_nil v = false.
Proof. destruct v; simpl; congruence. Qed.

Ltac go :=
  cbv beta iota zeta delta
    [RunScript prepare run bind ret Return util_IsExist time_Now_UnixNano
     call_UnTar os_Stat cmd_CombinedOutput log_Debugf emit ask act host trace
     andb negb fst snd].

(** The flags in closed form. *)
Lemma ns_flags_closed (ctx : Context) (pid : Value) :
  ns_flags K N ctx pid
  = "-t " ++ fmt_s pid
    ++ flag (requested K ctx (NSPidFlagName N)) " -p"
    ++ flag (requested K ctx (NSMntFlagName N)) " -m"
    ++ flag (requested K ctx (NSNetFlagName N)) " -n".
Proof.
  unfold ns_flags, requested, flag.
  rewrite Sprintf_target.
  destruct (Value_eqb (ctx_Value ctx (NSPidFlagName N)) (spec_True K));
    destruct (Value_eqb (ctx_Value ctx (NSMntFlagName N)) (spec_True K));
    destruct (Value_eqb (ctx_Value ctx (NSNetFlagName N)) (spec_True K));
    rewrite ?Sprintf_pid_ns, ?Sprintf_mnt_ns, ?Sprintf_net_ns;
    rewrite ?append_assoc, ?append_nil_r; reflexivity.
Qed.

(** [prepare], path by path, for a context that carries a target pid. *)
Lemma prepare_paths (ctx : Context) (script args uid : string) (w : World St) :
  ctx_Value ctx (NSTargetFlagName N) <> VNil ->
  prepare K N H ctx script args uid w
  = if rejected H script (host w) then
      (inl (ResponseFailWithFlags (ChaosbladeFileNotFound K) [VString script]),
       probed H script w)
    else
      let s1 := snd (UnTar H script (tarDistDir H script (host w)) (host w)) in
      let err := Stat H s1 (scriptMain H script (host w)) in
      if IsNotExist err then
        (inl (ResponseFailWithFlags (FileNotExist K)
                [VString (" script files must contain main file "
                          ++ match err with
                             | Some e => PathError_Error e
                             | None => ""
                             end)]),
         staged H script w s1)
      else
        let '((out, cerr), s2) := CombinedOutput H (cmdChmod K H script (host w)) s1 in
        (match cerr with
         | Some text =>
             inl (ResponseFailWithFlags (OsCmdExecFailed K)
                    [VCmd (cmdChmod K H script (host w)); VString (out ++ " " ++ text)])
         | None => inr (cmdScript K N H ctx script args uid (host w))
         end,
         normalized K N H ctx script args w s1 out cerr s2).
Proof.
  intros Hpid. unfold rejected, normalized, staged, probed, cmdScript, cmdChmod,
    scriptMain, tarDistDir, bin.
  destruct w as [s0 tr].
  go. rewrite (is_nil_false Hpid).
  destruct (isBladeCommand H script); go;
    [destruct (IsExist H s0 script); go; [| reflexivity] |];
    rewrite !Sprintf_decimal, !Sprintf_shell;
    (destruct (UnTar H script _ s0) as [r s1]; go;
     destruct (IsNotExist _); [rewrite <- ?app_assoc; reflexivity |];
     destruct (CombinedOutput H _ s1) as [[out cerr] s2]; go;
     destruct cerr; rewrite <- ?app_assoc; reflexivity).
Qed.

(** [RunScript] after [prepare]: an early return is the result; otherwise
    the command runs and its output is decoded. *)
Lemma RunScript_after_prepare (ctx : Context) (script args uid : string) (w : World St) :
  RunScript K N H ctx script args uid w
  = match prepare K N H ctx script args uid w with
    | (inl r, w1) => (r, w1)
    | (inr cmd, w1) =>
        let '((out, err), s2) := CombinedOutput H cmd (host w1) in
        (decode_output K H cmd out err,
         {| host := s2;
            trace := trace w1
                     ++ [EvRun cmd;
                         EvDebugf (Sprintf "Command Result, output: %v, err: %v"
                                     [VString out; error_value err])] |})
    end.
Proof.
  unfold RunScript, run, bind at 1.
  destruct (prepare K N H ctx script args uid w) as [[r | cmd] [s1 tr1]];
    [reflexivity |].
  go. destruct (CombinedOutput H cmd s1) as [[out err] s2]; go.
  rewrite <- app_assoc. reflexivity.
Qed.

(** The response once the script's command has run. *)
Lemma RunScript_decodes (ctx : Context) (script args uid : string) (w w1 : World St)
    (cmd : Cmd) (out : string) (err : option string) (s2 : St) :
  prepare K N H ctx script args uid w = (inr cmd, w1) ->
  CombinedOutput H cmd (host w1) = ((out, err), s2) ->
  fst (RunScript K N H ctx script args uid w) = decode_output K H cmd out err.
Proof.
  intros Hprep Hrun. rewrite RunScript_after_prepare, Hprep, Hrun. reflexivity.
Qed.

(** The response when the entry point is not there after the extraction,
    whatever the extraction reported. *)
Lemma RunScript_main_not_exist
    (ctx : Context) (script args uid : string) (w : World St) (e : PathError) :
  ctx_Value ctx (NSTargetFlagName N) <> VNil ->
  rejected H script (host w) = false ->
  Stat H (snd (UnTar H script (tarDistDir H script (host w)) (host w)))
       (scriptMain H script (host w)) = Some e ->
  Err e = ENOENT ->
  RunScript K N H ctx script args uid w
  = (ResponseFailWithFlags (FileNotExist K)
       [VString (" script files must contain main file " ++ PathError_Error e)],
     staged H script w (snd (UnTar H script (tarDistDir H script (host w)) (host w)))).
Proof.
  intros Hpid Hok Hstat Hno.
  rewrite RunScript_after_prepare, prepare_paths by exact Hpid.
  rewrite Hok. cbv zeta. rewrite Hstat. unfold IsNotExist. rewrite Hno.
  reflexivity.
Qed.

(** C1.  Once the script's command has run: when its output is not empty
    after trimming white space and the code of the decoded response is not
    the one of [ResultUnmarshalFailed], [RunScript] returns the decoded
    response itself, whether or not the subprocess reported an error. *)
Theorem RunScript_returns_decoded
    (ctx : Context) (script args uid : string) (w w1 : World St)
    (cmd : Cmd) (out : string) (err : option string) (s2 : St) :
  prepare K N H ctx script args uid w = (inr cmd, w1) ->
  CombinedOutput H cmd (host w1) = ((out, err), s2) ->
  gostrings.TrimSpace out <> "" ->
  Response.Code (Decode K (json_Unmarshal H) out)
    <> CodeType.Code (ResultUnmarshalFailed K) ->
  fst (RunScript K N H ctx script args uid w) = Decode K (json_Unmarshal H) out.
Proof.
  intros Hprep Hrun Htrim Hcode.
  rewrite (RunScript_decodes _ _ _ _ _ Hprep Hrun). unfold decode_output.
  destruct (String.eqb_spec (gostrings.TrimSpace out) ""); [contradiction |].
  destruct (Z.eqb_spec (Response.Code (Decode K (json_Unmarshal H) out))
              (CodeType.Code (ResultUnmarshalFailed K))); [contradiction |].
  reflexivity.
Qed.

(** C2.  Once the script's command has run: when its output is empty after
    trimming white space, or the decoder rejects it, [RunScript] returns a
    success response whose result is the raw output if the subprocess
    reported no error, and otherwise a failure with the code of
    [OsCmdExecFailed] whose flags are the command and the raw output
    followed by a space and the error text. *)
Theorem RunScript_falls_back
    (ctx : Context) (script args uid : string) (w w1 : World St)
    (cmd : Cmd) (out : string) (err : option string) (s2 : St) :
  prepare K N H ctx script args uid w = (inr cmd, w1) ->
  CombinedOutput H cmd (host w1) = ((out, err), s2) ->
  gostrings.TrimSpace out = "" \/ (exists e, json_Unmarshal H out = inl e) ->
  fst (RunScript K N H ctx script args uid w)
  = match err with
    | None => ReturnSuccess K (VString out)
    | Some text =>
        ResponseFailWithFlags (OsCmdExecFailed K)
          [VCmd cmd; VString (out ++ " " ++ text)]
    end.
Proof.
  intros Hprep Hrun Hcase.
  rewrite (RunScript_decodes _ _ _ _ _ Hprep Hrun). unfold decode_output.
  destruct Hcase as [Hempty | [e He]].
  - rewrite Hempty. reflexivity.
  - destruct (negb _); [| reflexivity].
    unfold Decode. rewrite He. simpl. rewrite Z.eqb_refl. reflexivity.
Qed.

(** C3.  When the context carries no value under the target-pid key,
    [RunScript] answers [CommandIllegal] and leaves the world as it found
    it: the host state is unchanged and no call (no existence probe, no
    clock read, no extraction, no stat, no subprocess, no log) was made. *)
Theorem RunScript_missing_pid
    (ctx : Context) (script args uid : string) (w : World St) :
  ctx_Value ctx (NSTargetFlagName N) = VNil ->
  RunScript K N H ctx script args uid w
  = (ResponseFailWithFlags (CommandIllegal K) [VString script], w).
Proof.
  intros Hpid. unfold RunScript, prepare, run, bind.
  rewrite Hpid. reflexivity.
Qed.

(** C4.  The flags are [-t <pid>] followed by [-p], [-m] and [-n], in this
    order, each present exactly when the context value under its key is
    [spec.True].  With the mount and network namespaces requested and the
    pid namespace not, they are [-t <pid> -m -n]; and whatever is requested
    they are never [-t <pid> -n -m]. *)
Theorem ns_flags_order (ctx : Context) (pid : Value) :
  ns_flags K N ctx pid
  = "-t " ++ fmt_s pid
    ++ flag (requested K ctx (NSPidFlagName N)) " -p"
    ++ flag (requested K ctx (NSMntFlagName N)) " -m"
    ++ flag (requested K ctx (NSNetFlagName N)) " -n"
  /\ (requested K ctx (NSPidFlagName N) = false ->
      requested K ctx (NSMntFlagName N) = true ->
      requested K ctx (NSNetFlagName N) = true ->
      ns_flags K N ctx pid = "-t " ++ fmt_s pid ++ " -m -n")
  /\ ns_flags K N ctx pid <> "-t " ++ fmt_s pid ++ " -n -m".
Proof.
  rewrite ns_flags_closed. split; [reflexivity | split].
  - intros Hp Hm Hn. rewrite Hp, Hm, Hn. reflexivity.
  - intros E. apply append_inj_l in E. apply append_inj_l in E. revert E.
    destruct (requested K ctx (NSPidFlagName N));
      destruct (requested K ctx (NSMntFlagName N));
      destruct (requested K ctx (NSNetFlagName N)); simpl; discriminate.
Qed.

(** A script that is no blade command passes line 137 without a probe,
    whether or not it exists. *)
Lemma not_blade_not_rejected (script : string) (w : World St) :
  isBladeCommand H script = false ->
  rejected H script (host w) = false /\ probed H script w = w.
Proof.
  intros Hblade. unfold rejected, probed. rewrite Hblade. split; reflexivity.
Qed.

(** C5.  A script that is a blade command and does not exist is rejected
    at line 137: [RunScript] answers [ChaosbladeFileNotFound]; the host
    state is unchanged and the only call made is the existence probe, so
    the archive is not extracted.  (A script that is no blade command is
    not checked at this line.) *)
Theorem RunScript_blade_file_not_found
    (ctx : Context) (script args uid : string) (w : World St) :
  ctx_Value ctx (NSTargetFlagName N) <> VNil ->
  isBladeCommand H script = true ->
  IsExist H (host w) script = false ->
  RunScript K N H ctx script args uid w
  = (ResponseFailWithFlags (ChaosbladeFileNotFound K) [VString script],
     {| host := host w; trace := trace w ++ [EvIsExist script] |}).
Proof.
  intros Hpid Hblade Hmissing.
  rewrite RunScript_after_prepare, prepare_paths by exact Hpid.
  unfold rejected, probed. rewrite Hblade, Hmissing. reflexivity.
Qed.


(** C8.  The recorded command is built from strings alone.  It starts with
    [script  -t 2>/tmp/<uid>.time -a /tmp/<uid>.out]; on darwin the entry
    point and the arguments, if any, follow directly; elsewhere they follow
    [-c] between double quotes.  It is the last argument of the command of
    the script. *)
Theorem recording_form (uid main args : string) :
  recording H uid main args
  = (let trailing := if String.eqb args "" then "" else " " ++ args in
     if String.eqb (GOOS H) "darwin"
     then "script  -t 2>" ++ ("/tmp/" ++ uid ++ ".time")
          ++ " -a " ++ ("/tmp/" ++ uid ++ ".out")
          ++ " " ++ main ++ trailing
     else "script  -t 2>" ++ ("/tmp/" ++ uid ++ ".time")
          ++ " -a " ++ ("/tmp/" ++ uid ++ ".out")
          ++ "  -c  " ++ dquote ++ main ++ trailing ++ dquote)
  /\ forall ctx script s,
       last (Args (cmdScript K N H ctx script args uid s)) ""
       = recording H uid (scriptMain H script s) args.
Proof.
  split.
  - unfold recording. cbv zeta.
    destruct (String.eqb (GOOS H) "darwin"); destruct (String.eqb args "");
      simpl negb; cbv iota;
      repeat (rewrite ?append_assoc, ?append_nil_r; simpl); reflexivity.
  - intros ctx script s. unfold cmdScript, CommandContext. simpl Args.
    rewrite app_comm_cons. apply last_last.
Qed.

(** The chmod step, for every host and context: once the entry point is
    found, the command that runs is the helper with the single argument
    [chmod 777 <main>]; when it ends with an error the response is
    [OsCmdExecFailed] with the command and the output followed by the error
    text. *)
Lemma RunScript_chmod_step
    (ctx : Context) (script args uid : string) (w : World St) :
  ctx_Value ctx (NSTargetFlagName N) <> VNil ->
  rejected H script (host w) = false ->
  IsNotExist (Stat H (snd (UnTar H script (tarDistDir H script (host w)) (host w)))
                (scriptMain H script (host w))) = false ->
  In (EvRun {| gofmt.Path := bin K H;
               Args := [bin K H; "chmod 777 " ++ scriptMain H script (host w)] |})
     (trace (snd (RunScript K N H ctx script args uid w)))
  /\ forall out text s2,
       CombinedOutput H (cmdChmod K H script (host w))
         (snd (UnTar H script (tarDistDir H script (host w)) (host w)))
       = ((out, Some text), s2) ->
       fst (RunScript K N H ctx script args uid w)
       = ResponseFailWithFlags (OsCmdExecFailed K)
           [VCmd (cmdChmod K H script (host w)); VString (out ++ " " ++ text)].
Proof.
  intros Hpid Hok Hstat.
  rewrite RunScript_after_prepare, prepare_paths by exact Hpid.
  rewrite Hok. cbv zeta. rewrite Hstat. split.
  - destruct (CombinedOutput H (cmdChmod K H script (host w)) _) as [[out cerr] s2].
    assert (Hin : In (EvRun (cmdChmod K H script (host w)))
                    (trace (normalized K N H ctx script args w
                              (snd (UnTar H script (tarDistDir H script (host w)) (host w)))
                              out cerr s2))).
    { unfold normalized. cbn [trace]. apply in_or_app. right. simpl. auto. }
    destruct cerr as [text |]; [exact Hin |].
    destruct (CombinedOutput H _ _) as [[out' err'] s3]. cbn [snd trace].
    apply in_or_app. left. exact Hin.
  - intros out text s2 Hrun. rewrite Hrun. reflexivity.
Qed.

(** C9.  What [UnTar] returns is dropped: a host whose [UnTar] reports
    something else, with the same effect on the state, gives the same run.
    The one check after the extraction is [os.IsNotExist] on the error of
    [os.Stat] for [main]: when [UnTar] reports a failure, the response is
    [FileNotExist] with the text of the [os.Stat] error if that error is
    [ENOENT], and the run goes on to the chmod step if [os.Stat] succeeds
    or fails with another error. *)
Theorem RunScript_drops_UnTar_result
    (ctx : Context) (script args uid : string) (w : World St) :
  (forall f : option string -> option string,
      RunScript K N (with_UnTar_result f H) ctx script args uid w
      = RunScript K N H ctx script args uid w)
  /\ (forall problem : string,
        ctx_Value ctx (NSTargetFlagName N) <> VNil ->
        rejected H script (host w) = false ->
        fst (UnTar H script (tarDistDir H script (host w)) (host w)) = Some problem ->
        (forall e : PathError,
            Stat H (snd (UnTar H script (tarDistDir H script (host w)) (host w)))
                 (tarDistDir H script (host w) ++ "/main") = Some e ->
            Err e = ENOENT ->
            fst (RunScript K N H ctx script args uid w)
            = ResponseFailWithFlags (FileNotExist K)
                [VString (" script files must contain main file "
                          ++ PathError_Error e)])
        /\ (IsNotExist
              (Stat H (snd (UnTar H script (tarDistDir H script (host w)) (host w)))
                    (tarDistDir H script (host w) ++ "/main")) = false ->
            In (EvRun (cmdChmod K H script (host w)))
               (trace (snd (RunScript K N H ctx script args uid w))))).
Proof.
  split.
  - intros f. destruct w as [s0 tr]. go.
    destruct (is_nil (ctx_Value ctx (NSTargetFlagName N))); [reflexivity |].
    unfold recording, decode_output, with_UnTar_result.
    cbn [GOOS GetProgramPath isBladeCommand IsExist UnixNano UnTar Stat
         CombinedOutput json_Unmarshal].
    destruct (isBladeCommand H script); go;
      [destruct (IsExist H s0 script); go; [| reflexivity] |];
      (destruct (UnTar H script _ s0) as [r s1]; go;
       destruct (IsNotExist _); [reflexivity |];
       destruct (CombinedOutput H _ s1) as [[out cerr] s2]; go;
       destruct cerr; [reflexivity |]; go;
       destruct (CombinedOutput H _ s2) as [[out' err'] s3]; reflexivity).
  - intros problem Hpid Hok _. split.
    + intros e Hstat Hno.
      rewrite (@RunScript_main_not_exist ctx script args uid w e Hpid Hok Hstat Hno).
      reflexivity.
    + intros Hstat.
      exact (proj1 (@RunScript_chmod_step ctx script args uid w Hpid Hok Hstat)).
Qed.

(** C10.  The target pid is only checked for presence.  For every value
    but [nil] under the target-pid key, the flags start with [-t] and the
    value as [%s] prints it; whether [RunScript] returns before the command
    of the script, with which response and in which host state, is the same
    as for any other such value; and the command, when reached, carries
    these flags. *)
Theorem RunScript_accepts_any_pid
    (ctx : Context) (script args uid : string) (w : World St) :
  ctx_Value ctx (NSTargetFlagName N) <> VNil ->
  (exists rest,
      ns_flags K N ctx (ctx_Value ctx (NSTargetFlagName N))
      = "-t " ++ fmt_s (ctx_Value ctx (NSTargetFlagName N)) ++ rest)
  /\ (forall ctx' : Context,
        ctx_Value ctx' (NSTargetFlagName N) <> VNil ->
        same_exit (prepare K N H ctx script args uid w)
                  (prepare K N H ctx' script args uid w))
  /\ (forall cmd w1,
        prepare K N H ctx script args uid w = (inr cmd, w1) ->
        Args cmd
        = (bin K H
           :: gostrings.Split1
                (ns_flags K N ctx (ctx_Value ctx (NSTargetFlagName N))
                 ++ " -- /bin/sh -c") " "
           ++ [recording H uid (scriptMain H script (host w)) args])%list).
Proof.
  intros Hpid. split; [| split].
  - rewrite ns_flags_closed. eexists. reflexivity.
  - intros ctx' Hpid'. rewrite !prepare_paths by assumption. unfold same_exit.
    destruct (rejected H script (host w)); [split; reflexivity |]. cbv zeta.
    destruct (IsNotExist _); [split; reflexivity |].
    destruct (CombinedOutput H _ _) as [[out cerr] s2].
    destruct cerr; split; reflexivity.
  - intros cmd w1. rewrite prepare_paths by exact Hpid.
    destruct (rejected H script (host w)); [discriminate |]. cbv zeta.
    destruct (IsNotExist _); [discriminate |].
    destruct (CombinedOutput H _ _) as [[out cerr] s2].
    destruct cerr; [discriminate |].
    intros E. injection E as E _. subst cmd. reflexivity.
Qed.

End Properties.

(** ** The chmod step on a concrete run *)

(** C7.  The run of the scenario (pid 1234, mount and network namespaces,
    [/tmp/pkg.tar] holding [main]) starts two subprocesses.  The chmod
    step is the helper with the one argument [chmod 777 <main>]: the flags
    [-t 1234 -m -n -- /bin/sh -c] that the command of the script carries
    are not passed to it. *)
Theorem chmod_runs_without_namespace_flags :
  commands
    (trace (snd (RunScript sample.K sample.N (sample.linux ["main"] "" None)
                   sample.ctx "/tmp/pkg.tar" "" "u1" sample.start)))
  = [ {| gofmt.Path := "/opt/chaosblade/bin/nsexec";
         Args := ["/opt/chaosblade/bin/nsexec";
                  "chmod 777 /tmp/1700000000000000000/main"] |};
      {| gofmt.Path := "/opt/chaosblade/bin/nsexec";
         Args := ["/opt/chaosblade/bin/nsexec";
                  "-t"; "1234"; "-m"; "-n"; "--"; "/bin/sh"; "-c";
                  "script  -t 2>/tmp/u1.time -a /tmp/u1.out  -c  "
                  ++ dquote ++ "/tmp/1700000000000000000/main" ++ dquote] |} ].
Proof. vm_compute. reflexivity. Qed.

(** ** The theorems at concrete inputs *)

(** The script prints a decodable payload and exits with status 1: the
    payload is the response. *)
Lemma RunScript_returns_decoded_witness :
  fst (RunScript sample.K sample.N
         (sample.linux ["main"] "{code:200}" (Some "exit status 1"))
         sample.ctx "/tmp/pkg.tar" "" "u1" sample.start)
  = sample.done.
Proof.
  refine (@RunScript_returns_decoded sample.State sample.K sample.N
            (sample.linux ["main"] "{code:200}" (Some "exit status 1"))
            sample.ctx "/tmp/pkg.tar" "" "u1" sample.start
            _ _ "{code:200}" (Some "exit status 1") _ _ _ _ _).
  - vm_compute. reflexivity.
  - vm_compute. reflexivity.
  - vm_compute. discriminate.
  - vm_compute. discriminate.
Defined.

(** The script prints text the decoder rejects and exits with status 1. *)
Lemma RunScript_falls_back_witness :
  fst (RunScript sample.K sample.N
         (sample.linux ["main"] "boom" (Some "exit status 1"))
         sample.ctx "/tmp/pkg.tar" "" "u1" sample.start)
  = {| Response.Code := 63061;
       Response.Success := false;
       Response.Err :=
         "`/opt/chaosblade/bin/nsexec -t 1234 -m -n -- /bin/sh -c "
         ++ "script  -t 2>/tmp/u1.time -a /tmp/u1.out  -c  "
         ++ dquote ++ "/tmp/1700000000000000000/main" ++ dquote
         ++ "`: cmd exec failed, err: boom exit status 1";
       Response.Result := VNil |}.
Proof.
  etransitivity.
  - eapply (@RunScript_falls_back sample.State sample.K sample.N
              (sample.linux ["main"] "boom" (Some "exit status 1"))
              sample.ctx "/tmp/pkg.tar" "" "u1" sample.start).
    + vm_compute. reflexivity.
    + vm_compute. reflexivity.
    + right. exists "invalid character". reflexivity.
  - vm_compute. reflexivity.
Defined.

(** An empty context. *)
Lemma RunScript_missing_pid_witness :
  RunScript sample.K sample.N (sample.linux ["main"] "" None)
            [] "/tmp/pkg.tar" "" "u1" sample.start
  = ({| Response.Code := 49000;
        Response.Success := false;
        Response.Err := "illegal command, err: /tmp/pkg.tar";
        Response.Result := VNil |},
     sample.start).
Proof.
  apply (@RunScript_missing_pid sample.State sample.K sample.N
           (sample.linux ["main"] "" None) [] "/tmp/pkg.tar" "" "u1" sample.start).
  reflexivity.
Defined.

(** The network flag is set before the mount flag in the context; the
    flags come out in the fixed order. *)
Lemma ns_flags_order_witness :
  ns_flags sample.K sample.N sample.ctx (VString "1234") = "-t 1234 -m -n".
Proof.
  apply (proj1 (proj2 (@ns_flags_order sample.K sample.N sample.ctx (VString "1234"))));
    reflexivity.
Defined.

(** A blade command that is not on the host. *)
Lemma RunScript_blade_file_not_found_witness :
  RunScript sample.K sample.N (sample.linux ["main"] "" None)
            sample.ctx "/opt/chaosblade/blade" "" "u1" sample.start
  = ({| Response.Code := 51000;
        Response.Success := false;
        Response.Err := "`/opt/chaosblade/blade`: chaosblade file not found";
        Response.Result := VNil |},
     {| host := host sample.start;
        trace := [EvIsExist "/opt/chaosblade/blade"] |}).
Proof.
  apply (@RunScript_blade_file_not_found sample.State sample.K sample.N
           (sample.linux ["main"] "" None)
           sample.ctx "/opt/chaosblade/blade" "" "u1" sample.start).
  - vm_compute. discriminate.
  - reflexivity.
  - reflexivity.
Defined.


(** An archive that is not on the host (and is no blade command): the
    extraction fails, and the response is the one of the missing [main]. *)
Lemma RunScript_drops_UnTar_result_witness :
  fst (RunScript sample.K sample.N (sample.linux ["main"] "" None)
         sample.ctx "/tmp/none.tar" "" "u1" sample.start)
  = ResponseFailWithFlags (FileNotExist sample.K)
      [VString (" script files must contain main file "
                ++ "stat /tmp/1700000000000000000/main: no such file or directory")].
Proof.
  refine (proj1 (proj2 (@RunScript_drops_UnTar_result sample.State sample.K sample.N
                          (sample.linux ["main"] "" None)
                          sample.ctx "/tmp/none.tar" "" "u1" sample.start)
                   "open /tmp/none.tar: no such file or directory" _ _ _)
            {| Op := "stat"; Path := "/tmp/1700000000000000000/main"; Err := ENOENT |}
            _ _).
  - vm_compute. discriminate.
  - reflexivity.
  - reflexivity.
  - reflexivity.
  - reflexivity.
Defined.

(** C9, as first stated, fails: an extraction that reports a failure after
    it wrote [main] does not surface as [FileNotExist]; both subprocesses
    run and the response is the success of the script. *)
Lemma failed_extraction_can_succeed :
  fst (UnTar (with_UnTar untar_cut_short (sample.linux [] "" None))
         "/tmp/pkg.tar" "/tmp/1700000000000000000" (host sample.start))
  = Some "unexpected EOF"
  /\ fst (RunScript sample.K sample.N
            (with_UnTar untar_cut_short (sample.linux [] "" None))
            sample.ctx "/tmp/pkg.tar" "" "u1" sample.start)
     = ReturnSuccess sample.K (VString "")
  /\ Response.Code
       (fst (RunScript sample.K sample.N
               (with_UnTar untar_cut_short (sample.linux [] "" None))
               sample.ctx "/tmp/pkg.tar" "" "u1" sample.start))
     <> CodeType.Code (FileNotExist sample.K)
  /\ length
       (commands
          (trace (snd (RunScript sample.K sample.N
                         (with_UnTar untar_cut_short (sample.linux [] "" None))
                         sample.ctx "/tmp/pkg.tar" "" "u1" sample.start))))
     = 2%nat.
Proof.
  repeat split; try (vm_compute; reflexivity). vm_compute. discriminate.
Qed.

(** C5, as first stated, fails: a package that is not on the host and is
    no blade command passes line 137; it is handed to [UnTar], and the
    response is [FileNotExist], not [ChaosbladeFileNotFound]. *)
Lemma unrecognised_package_is_extracted :
  isBladeCommand (sample.linux ["main"] "" None) "/tmp/none.tar" = false
  /\ IsExist (sample.linux ["main"] "" None) (host sample.start) "/tmp/none.tar" = false
  /\ Response.Code
       (fst (RunScript sample.K sample.N (sample.linux ["main"] "" None)
               sample.ctx "/tmp/none.tar" "" "u1" sample.start))
     = CodeType.Code (FileNotExist sample.K)
  /\ Response.Code
       (fst (RunScript sample.K sample.N (sample.linux ["main"] "" None)
               sample.ctx "/tmp/none.tar" "" "u1" sample.start))
     <> CodeType.Code (ChaosbladeFileNotFound sample.K)
  /\ In (EvUnTar "/tmp/none.tar" "/tmp/1700000000000000000")
        (trace (snd (RunScript sample.K sample.N (sample.linux ["main"] "" None)
                       sample.ctx "/tmp/none.tar" "" "u1" sample.start))).
Proof.
  repeat split; try (vm_compute; reflexivity).
  - vm_compute. discriminate.
  - vm_compute. auto.
Qed.

(** A target pid that is no number. *)
Lemma RunScript_accepts_any_pid_witness :
  exists cmd w1,
    prepare sample.K sample.N (sample.linux ["main"] "" None)
            [("ns_target", VString "not a pid")] "/tmp/pkg.tar" "" "u1" sample.start
    = (inr cmd, w1)
    /\ Args cmd
       = ["/opt/chaosblade/bin/nsexec"; "-t"; "not"; "a"; "pid"; "--"; "/bin/sh"; "-c";
          "script  -t 2>/tmp/u1.time -a /tmp/u1.out  -c  "
          ++ dquote ++ "/tmp/1700000000000000000/main" ++ dquote].
Proof.
  assert (Hpid : ctx_Value [("ns_target", VString "not a pid")]
                   (NSTargetFlagName sample.N) <> VNil)
    by (vm_compute; discriminate).
  destruct (@RunScript_accepts_any_pid sample.State sample.K sample.N
              (sample.linux ["main"] "" None)
              [("ns_target", VString "not a pid")] "/tmp/pkg.tar" "" "u1"
              sample.start Hpid) as [_ [_ Hargs]].
  eexists. eexists. split.
  - vm_compute. reflexivity.
  - erewrite Hargs by (vm_compute; reflexivity). vm_compute. reflexivity.
Defined.

(** ** Splitting and joining *)

Lemma string_of_list_ascii_snoc (l : list ascii) (a : ascii) (rest : string) :
  string_of_list_ascii (l ++ [a])%list ++ rest
  = string_of_list_ascii l ++ String a rest.
Proof. induction l as [|x l IH]; simpl; [reflexivity | now rewrite IH]. Qed.

Lemma string_of_list_ascii_app (l : list ascii) (s : string) :
  string_of_list_ascii (l ++ list_ascii_of_string s)%list
  = string_of_list_ascii l ++ s.
Proof.
  induction l as [|x l IH]; simpl.
  - apply string_of_list_ascii_of_string.
  - now rewrite IH.
Qed.

Lemma split_at_nonempty (c : ascii) (cur : list ascii) (s : string) :
  gostrings.split_at c cur s <> [].
Proof.
  revert cur. induction s as [|a s IH]; intros cur; simpl; [discriminate |].
  destruct (Ascii.eqb a c); [discriminate | apply IH].
Qed.

Lemma Join_cons (x : string) (l : list string) (sep : string) :
  l <> [] -> gostrings.Join (x :: l) sep = x ++ sep ++ gostrings.Join l sep.
Proof. destruct l; [congruence | reflexivity]. Qed.

Lemma Join_snoc (l : list string) (x sep : string) :
  l <> [] -> gostrings.Join (l ++ [x])%list sep = gostrings.Join l sep ++ sep ++ x.
Proof.
  induction l as [|y l IH]; [congruence |]. intros _.
  destruct l as [|z l]; [reflexivity |].
  change ((y :: z :: l) ++ [x])%list with (y :: ((z :: l) ++ [x]))%list.
  rewrite Join_cons by (simpl; discriminate).
  rewrite IH by discriminate.
  rewrite (@Join_cons y (z :: l)) by discriminate.
  now rewrite !append_assoc.
Qed.

(** Joining the fields of a split by the separator gives the string
    back. *)
Lemma Join_split_at (c : ascii) (cur : list ascii) (s : string) :
  gostrings.Join (gostrings.split_at c cur s) (String c "")
  = string_of_list_ascii (rev cur) ++ s.
Proof.
  revert cur. induction s as [|a s IH]; intros cur; simpl.
  - now rewrite append_nil_r.
  - destruct (Ascii.eqb_spec a c) as [-> | Hne].
    + rewrite Join_cons by apply split_at_nonempty.
      rewrite IH. reflexivity.
    + rewrite IH. simpl. apply string_of_list_ascii_snoc.
Qed.

Lemma Join_Split1 (s : string) (c : ascii) :
  gostrings.Join (gostrings.Split1 s c) (String c "") = s.
Proof. unfold gostrings.Split1. now rewrite Join_split_at. Qed.

(** The first field of a split ends at the first separator. *)
Lemma split_at_field (c : ascii) (cur : list ascii) (a b : string) :
  has_byte c a = false ->
  gostrings.split_at c cur (a ++ String c b)
  = (string_of_list_ascii (rev cur) ++ a) :: gostrings.split_at c [] b.
Proof.
  revert cur. induction a as [|x a IH]; intros cur Hno; simpl.
  - rewrite Ascii.eqb_refl, append_nil_r. reflexivity.
  - simpl in Hno. apply orb_false_iff in Hno. destruct Hno as [Hx Ha].
    rewrite Hx, IH by exact Ha. simpl.
    now rewrite string_of_list_ascii_snoc.
Qed.

Lemma Split1_field (c : ascii) (a b : string) :
  has_byte c a = false ->
  gostrings.Split1 (a ++ String c b) c = a :: gostrings.Split1 b c.
Proof. intros Hno. unfold gostrings.Split1. now rewrite split_at_field. Qed.

(** ** More about [RunScript] *)

Lemma commands_app (l1 l2 : list Event) :
  commands (l1 ++ l2) = (commands l1 ++ commands l2)%list.
Proof.
  induction l1 as [|e l1 IH]; simpl; [reflexivity |].
  destruct e; simpl; now rewrite IH.
Qed.

Section Exits.
Variable St : Type.
Variable K : Constants.
Variable N : Keys.
Variable H : Host St.

Lemma IsNotExist_other (e : PathError) : Err e <> ENOENT -> IsNotExist (Some e) = false.
Proof. unfold IsNotExist. destruct (Err e); congruence. Qed.

(** [prepare] reaches the command of the script only with a target pid,
    and the command is the one of line 195. *)
Lemma prepare_command (ctx : Context) (script args uid : string) (w w1 : World St)
    (cmd : Cmd) :
  prepare K N H ctx script args uid w = (inr cmd, w1) ->
  ctx_Value ctx (NSTargetFlagName N) <> VNil
  /\ cmd = cmdScript K N H ctx script args uid (host w).
Proof.
  intros Hprep.
  assert (Hpid : ctx_Value ctx (NSTargetFlagName N) <> VNil).
  { intros Hnil. unfold prepare in Hprep. rewrite Hnil in Hprep.
    discriminate Hprep. }
  split; [exact Hpid |].
  rewrite prepare_paths in Hprep by exact Hpid.
  destruct (rejected H script (host w)); [discriminate |]. cbv zeta in Hprep.
  destruct (IsNotExist _); [discriminate |].
  destruct (CombinedOutput H _ _) as [[out cerr] s2].
  destruct cerr; [discriminate |]. now injection Hprep as <- _.
Qed.

(** X1.  Every return of [RunScript] before the command of the script is a
    failure: the response has the success flag off, no result, and the code
    of [CommandIllegal], [ChaosbladeFileNotFound], [FileNotExist] or
    [OsCmdExecFailed]; it is the result of [RunScript], with the world of
    that point. *)
Theorem early_return_is_failure
    (ctx : Context) (script args uid : string) (w w1 : World St) (r : Response.t) :
  prepare K N H ctx script args uid w = (inl r, w1) ->
  RunScript K N H ctx script args uid w = (r, w1)
  /\ Response.Success r = false
  /\ Response.Result r = VNil
  /\ In (Response.Code r)
        (map CodeType.Code
           [CommandIllegal K; ChaosbladeFileNotFound K; FileNotExist K;
            OsCmdExecFailed K]).
Proof.
  intros Hprep. split.
  { rewrite RunScript_after_prepare, Hprep. reflexivity. }
  destruct (Value_eq_dec (ctx_Value ctx (NSTargetFlagName N)) VNil) as [Hnil | Hpid].
  - unfold prepare in Hprep. rewrite Hnil in Hprep. injection Hprep as <- _.
    repeat split; simpl; auto 6.
  - rewrite prepare_paths in Hprep by exact Hpid.
    destruct (rejected H script (host w)).
    { injection Hprep as <- _. repeat split; simpl; auto 6. }
    cbv zeta in Hprep. destruct (IsNotExist _).
    { injection Hprep as <- _. repeat split; simpl; auto 6. }
    destruct (CombinedOutput H _ _) as [[out cerr] s2].
    destruct cerr; [| discriminate].
    injection Hprep as <- _. repeat split; simpl; auto 6.
Qed.

(** X2.  [RunScript] starts at most two subprocesses, and each of them is
    the helper [bin]: the program run and the first element of the argument
    vector are [bin]. *)
Theorem RunScript_runs_only_the_helper
    (ctx : Context) (script args uid : string) (w : World St) :
  exists l,
    commands (trace (snd (RunScript K N H ctx script args uid w)))
    = (commands (trace w) ++ l)%list
    /\ (length l <= 2)%nat
    /\ Forall (fun c => gofmt.Path c = bin K H /\ hd "" (Args c) = bin K H) l.
Proof.
  rewrite RunScript_after_prepare.
  destruct (Value_eq_dec (ctx_Value ctx (NSTargetFlagName N)) VNil) as [Hnil | Hpid].
  { unfold prepare. rewrite Hnil. exists [].
    split; [cbn [snd]; now rewrite app_nil_r | split; [simpl; lia | constructor]]. }
  rewrite prepare_paths by exact Hpid.
  assert (Hprobed : commands (trace (probed H script w)) = commands (trace w)).
  { unfold probed. destruct (isBladeCommand H script); [| reflexivity].
    cbn [trace]. rewrite commands_app. simpl. apply app_nil_r. }
  destruct (rejected H script (host w)).
  { exists []. split; [cbn [snd]; now rewrite Hprobed, app_nil_r |].
    split; [simpl; lia | constructor]. }
  cbv zeta. destruct (IsNotExist _).
  { exists []. split; [| split; [simpl; lia | constructor]].
    cbn [snd]. unfold staged. cbn [trace].
    rewrite commands_app, Hprobed. reflexivity. }
  destruct (CombinedOutput H (cmdChmod K H script (host w)) _) as [[out cerr] s2].
  destruct cerr as [text |].
  - exists [cmdChmod K H script (host w)].
    split; [| split; [simpl; lia | repeat constructor]].
    cbn [snd]. unfold normalized, staged. cbn [trace].
    rewrite !commands_app, Hprobed. simpl. now rewrite app_nil_r.
  - destruct (CombinedOutput H _ _) as [[out' err'] s3].
    exists [cmdChmod K H script (host w); cmdScript K N H ctx script args uid (host w)].
    split; [| split; [simpl; lia | repeat constructor]].
    cbn [snd host trace]. unfold normalized, staged. cbn [trace].
    rewrite !commands_app, Hprobed. simpl.
    rewrite app_nil_r, <- app_assoc. reflexivity.
Qed.

(** X3.  Only [ENOENT] counts as a missing entry point: when [os.Stat]
    fails on [main] with another error, [RunScript] does not answer
    [FileNotExist] at line 151 but goes on to the chmod step, and its
    result is not the early [FileNotExist] return. *)
Theorem stat_error_other_than_not_exist_goes_on
    (ctx : Context) (script args uid : string) (w : World St) (e : PathError) :
  ctx_Value ctx (NSTargetFlagName N) <> VNil ->
  rejected H script (host w) = false ->
  Stat H (snd (UnTar H script (tarDistDir H script (host w)) (host w)))
       (scriptMain H script (host w)) = Some e ->
  Err e <> ENOENT ->
  In (EvRun (cmdChmod K H script (host w)))
     (trace (snd (RunScript K N H ctx script args uid w)))
  /\ forall r w1,
       prepare K N H ctx script args uid w = (inl r, w1) ->
       exists out text,
         r = ResponseFailWithFlags (OsCmdExecFailed K)
               [VCmd (cmdChmod K H script (host w)); VString (out ++ " " ++ text)].
Proof.
  intros Hpid Hok Hstat Hother. split.
  - apply (proj1 (@RunScript_chmod_step St K N H ctx script args uid w Hpid Hok
                    ltac:(rewrite Hstat; now apply IsNotExist_other))).
  - intros r w1. rewrite prepare_paths by exact Hpid.
    rewrite Hok. cbv zeta. rewrite Hstat, (@IsNotExist_other e Hother).
    destruct (CombinedOutput H _ _) as [[out cerr] s2].
    destruct cerr as [text |]; [| discriminate].
    intros E. injection E as <- _. now exists out, text.
Qed.

(** X4.  When the chmod step ends with an error, [RunScript] stops there:
    the response is [OsCmdExecFailed] with the chmod command and its output
    followed by the error text, the host is left as the chmod subprocess
    left it, and the command of the script is never started. *)
Theorem chmod_failure_stops_the_run
    (ctx : Context) (script args uid : string) (w : World St)
    (out text : string) (s2 : St) :
  ctx_Value ctx (NSTargetFlagName N) <> VNil ->
  rejected H script (host w) = false ->
  IsNotExist (Stat H (snd (UnTar H script (tarDistDir H script (host w)) (host w)))
                (scriptMain H script (host w))) = false ->
  CombinedOutput H (cmdChmod K H script (host w))
    (snd (UnTar H script (tarDistDir H script (host w)) (host w)))
  = ((out, Some text), s2) ->
  fst (RunScript K N H ctx script args uid w)
  = ResponseFailWithFlags (OsCmdExecFailed K)
      [VCmd (cmdChmod K H script (host w)); VString (out ++ " " ++ text)]
  /\ host (snd (RunScript K N H ctx script args uid w)) = s2
  /\ commands (trace (snd (RunScript K N H ctx script args uid w)))
     = (commands (trace w) ++ [cmdChmod K H script (host w)])%list.
Proof.
  intros Hpid Hok Hstat Hrun.
  rewrite RunScript_after_prepare, prepare_paths by exact Hpid.
  rewrite Hok. cbv zeta. rewrite Hstat, Hrun. cbn [fst snd].
  repeat split. unfold normalized, staged, probed. cbn [trace].
  destruct (isBladeCommand H script); cbn [trace];
    rewrite !commands_app; simpl; rewrite ?app_nil_r; reflexivity.
Qed.

End Exits.

Lemma decimal_inj (z z' : Z) : decimal z = decimal z' -> z = z'.
Proof.
  unfold decimal. intros E. apply DecimalZ.to_int_inj.
  assert (G : forall n, NilZero.int_of_string (NilZero.string_of_int (Z.to_int n))
                        = Some (Z.to_int n)).
  { intros n. apply NilZero.isi; destruct n; simpl; try discriminate;
      intros [= E']; now apply Unsigned.to_uint_nonnil in E'. }
  assert (E2 : Some (Z.to_int z) = Some (Z.to_int z')).
  { rewrite <- !G. now rewrite E. }
  now injection E2.
Qed.

Section Commands.
Variable St : Type.
Variable K : Constants.
Variable N : Keys.
Variable H : Host St.

(** X5.  The description of the command of the script, as the
    [OsCmdExecFailed] message prints it, is the helper, the flag string
    with [-- /bin/sh -c] and the recorded command, separated by single
    spaces: splitting the flags into arguments loses nothing. *)
Theorem script_command_description
    (ctx : Context) (script args uid : string) (w w1 : World St) (cmd : Cmd) :
  prepare K N H ctx script args uid w = (inr cmd, w1) ->
  Cmd_String cmd
  = bin K H ++ " "
    ++ ns_flags K N ctx (ctx_Value ctx (NSTargetFlagName N)) ++ " -- /bin/sh -c"
    ++ " " ++ recording H uid (scriptMain H script (host w)) args.
Proof.
  intros Hprep. destruct (@prepare_command St K N H ctx script args uid w w1 cmd Hprep) as [_ ->].
  unfold cmdScript, Cmd_String, CommandContext. cbn [gofmt.Path Args tl].
  rewrite Join_cons
    by (intros E; apply app_eq_nil in E; destruct E as [_ E]; discriminate E).
  rewrite Join_snoc by apply split_at_nonempty.
  change " " with (String " " "") at 2 3.
  rewrite Join_Split1, !append_assoc. reflexivity.
Qed.

(** The first two fields of the flag string. *)
Lemma Split1_target (p rest : string) :
  has_byte " " p = false ->
  gostrings.Split1 ("-t " ++ p ++ String " " rest) " "
  = "-t" :: p :: gostrings.Split1 rest " ".
Proof.
  intros Hno.
  change ("-t " ++ p ++ String " " rest) with ("-t" ++ String " " (p ++ String " " rest)).
  rewrite Split1_field by reflexivity. now rewrite Split1_field by exact Hno.
Qed.

(** X6.  When the text of the target pid holds no space, the argument
    vector of the command of the script is the helper, [-t], the pid, one
    argument per requested namespace in the order [-p], [-m], [-n], then
    [--], [/bin/sh], [-c] and the recorded command as one argument.  An
    empty pid text is passed as an empty argument. *)
Theorem script_command_arguments
    (ctx : Context) (script args uid : string) (w w1 : World St) (cmd : Cmd) :
  prepare K N H ctx script args uid w = (inr cmd, w1) ->
  has_byte " " (fmt_s (ctx_Value ctx (NSTargetFlagName N))) = false ->
  Args cmd
  = (bin K H :: "-t" :: fmt_s (ctx_Value ctx (NSTargetFlagName N))
     :: ns_args K N ctx
     ++ ["--"; "/bin/sh"; "-c"; recording H uid (scriptMain H script (host w)) args])%list.
Proof.
  intros Hprep Hno. destruct (@prepare_command St K N H ctx script args uid w w1 cmd Hprep) as [_ ->].
  unfold cmdScript, CommandContext, ns_args. cbn [Args].
  rewrite ns_flags_closed. unfold flag. f_equal.
  remember "-t " as t eqn:Et.
  remember (fmt_s (ctx_Value ctx (NSTargetFlagName N))) as p eqn:Ep.
  destruct (requested K ctx (NSPidFlagName N));
    destruct (requested K ctx (NSMntFlagName N));
    destruct (requested K ctx (NSNetFlagName N));
    rewrite !append_assoc; cbn [String.append]; subst t;
    rewrite Split1_target by exact Hno; reflexivity.
Qed.

(** X7.  The staging directory of a package is decided by the directory
    of the package and the clock: two runs on packages of one directory
    stage into the same directory exactly when they read the same clock
    value. *)
Theorem staging_directory_by_clock (script script' : string) (s s' : St) :
  gopath.Dir script = gopath.Dir script' ->
  (tarDistDir H script s = tarDistDir H script' s' <-> UnixNano H s = UnixNano H s').
Proof.
  intros Hdir. unfold tarDistDir. rewrite Hdir. split.
  - intros E. apply append_inj_l in E. apply append_inj_l in E.
    now apply decimal_inj.
  - intros ->. reflexivity.
Qed.

(** X8.  A payload that decodes to a response carrying the code of
    [ResultUnmarshalFailed] is treated like undecodable output: the decoded
    response is dropped, and the result is success with the raw output when
    the subprocess reported no error, and [OsCmdExecFailed] otherwise. *)
Theorem sentinel_code_is_not_returned
    (ctx : Context) (script args uid : string) (w w1 : World St)
    (cmd : Cmd) (out : string) (err : option string) (s2 : St) (resp : Response.t) :
  prepare K N H ctx script args uid w = (inr cmd, w1) ->
  CombinedOutput H cmd (host w1) = ((out, err), s2) ->
  json_Unmarshal H out = inr resp ->
  Response.Code resp = CodeType.Code (ResultUnmarshalFailed K) ->
  fst (RunScript K N H ctx script args uid w)
  = match err with
    | None => ReturnSuccess K (VString out)
    | Some text =>
        ResponseFailWithFlags (OsCmdExecFailed K)
          [VCmd cmd; VString (out ++ " " ++ text)]
    end.
Proof.
  intros Hprep Hrun Hdec Hcode.
  rewrite (@RunScript_decodes St K N H ctx script args uid w w1 cmd out err s2 Hprep Hrun). unfold decode_output, Decode.
  rewrite Hdec, Hcode, Z.eqb_refl. simpl. now destruct (String.eqb _ _).
Qed.

Lemma probes_app (l1 l2 : list Event) :
  probes (l1 ++ l2) = (probes l1 ++ probes l2)%list.
Proof.
  induction l1 as [|e l1 IH]; simpl; [reflexivity |].
  destruct e; simpl; now rewrite IH.
Qed.

(** X9.  A script that is no blade command is never probed for existence:
    given a target pid, the run adds no [util.IsExist] call to the trace,
    and the first calls it makes are the clock read, the extraction of the
    script into the staging directory and the look-up of [main], whether or
    not the script exists. *)
Theorem not_blade_is_extracted_unchecked
    (ctx : Context) (script args uid : string) (w : World St) :
  ctx_Value ctx (NSTargetFlagName N) <> VNil ->
  isBladeCommand H script = false ->
  exists rest,
    trace (snd (RunScript K N H ctx script args uid w))
    = (trace w
       ++ [EvNow;
           EvUnTar script (tarDistDir H script (host w));
           EvStat (scriptMain H script (host w))]
       ++ rest)%list
    /\ probes rest = [].
Proof.
  intros Hpid Hblade.
  rewrite RunScript_after_prepare, prepare_paths by exact Hpid.
  unfold rejected. rewrite Hblade. cbn [andb]. cbv zeta.
  assert (Hst : forall s1, trace (staged H script w s1)
                 = (trace w ++ [EvNow; EvUnTar script (tarDistDir H script (host w));
                                EvStat (scriptMain H script (host w))])%list).
  { intros s1. unfold staged, probed. now rewrite Hblade. }
  destruct (IsNotExist _).
  { exists []. cbn [snd]. now rewrite Hst. }
  destruct (CombinedOutput H (cmdChmod K H script (host w)) _) as [[out cerr] s2].
  destruct cerr as [text |].
  - eexists. cbn [snd]. unfold normalized. cbn [trace]. rewrite Hst.
    rewrite <- app_assoc. split; reflexivity.
  - destruct (CombinedOutput H _ _) as [[out' err'] s3].
    eexists. cbn [snd trace]. unfold normalized. cbn [trace]. rewrite Hst.
    rewrite <- !app_assoc. split; reflexivity.
Qed.

End Commands.

(** ** The mock channel as [NewMockLocalChannel] builds it *)

(** X10.  The channel of [NewMockLocalChannel] finds no process by name,
    command line or port, knows no process and no command, names [admin]
    as the user of every pid, and answers every [Run] with the success
    response carrying [success]; on every mock channel, whatever its
    function fields, [IsAllCommandsAvailable] answers false without a
    response and [IsAlpinePlatform] answers false. *)
Theorem fresh_mock_channel
    (K : Constants) (binPath : string) (ctx : Context)
    (name pid port script args : string) (ports names : list string)
    (mlc : mockchannel.MockLocalChannel) :
  let fresh := mockchannel.NewMockLocalChannel K binPath in
  mockchannel.GetPidsByProcessCmdName fresh name ctx = ([], None)
  /\ mockchannel.GetPidsByProcessName fresh name ctx = ([], None)
  /\ mockchannel.GetPidsByLocalPorts fresh ctx ports = ([], None)
  /\ mockchannel.GetPidsByLocalPort fresh ctx port = ([], None)
  /\ mockchannel.ProcessExists fresh pid = (false, None)
  /\ mockchannel.IsCommandAvailable fresh ctx name = false
  /\ mockchannel.GetPidUser fresh pid = ("admin", None)
  /\ mockchannel.GetPsArgs fresh ctx = "-eo user,pid,ppid,args"
  /\ mockchannel.GetScriptPath fresh = binPath
  /\ mockchannel.Run fresh ctx script args = ReturnSuccess K (VString "success")
  /\ mockchannel.IsAllCommandsAvailable mlc ctx names = (None, false)
  /\ mockchannel.IsAlpinePlatform mlc ctx = false.
Proof. cbv zeta. repeat split. Qed.

(** ** The further theorems at concrete inputs *)

Lemma early_return_is_failure_witness :
  RunScript sample.K sample.N (sample.linux ["main"] "" None)
            [] "/tmp/pkg.tar" "" "u1" sample.start
  = (ResponseFailWithFlags (CommandIllegal sample.K) [VString "/tmp/pkg.tar"],
     sample.start)
  /\ Response.Success
       (ResponseFailWithFlags (CommandIllegal sample.K) [VString "/tmp/pkg.tar"])
     = false.
Proof.
  destruct (@early_return_is_failure sample.State sample.K sample.N
              (sample.linux ["main"] "" None) [] "/tmp/pkg.tar" "" "u1"
              sample.start sample.start
              (ResponseFailWithFlags (CommandIllegal sample.K) [VString "/tmp/pkg.tar"]))
    as [Hrun [Hfail _]].
  - reflexivity.
  - split; [exact Hrun | exact Hfail].
Defined.

(** [os.Stat] fails with "permission denied". *)
Lemma stat_error_other_than_not_exist_goes_on_witness :
  In (EvRun (CommandContext "/opt/chaosblade/bin/nsexec"
               ["chmod 777 /tmp/1700000000000000000/main"]))
     (trace (snd (RunScript sample.K sample.N
                    (with_stat (fun _ path => Some {| Op := "stat"; Path := path; Err := EACCES |})
                       (sample.linux ["main"] "" None))
                    sample.ctx "/tmp/pkg.tar" "" "u1" sample.start))).
Proof.
  refine (proj1 (@stat_error_other_than_not_exist_goes_on sample.State sample.K sample.N
                   (with_stat (fun _ path => Some {| Op := "stat"; Path := path; Err := EACCES |})
                      (sample.linux ["main"] "" None))
                   sample.ctx "/tmp/pkg.tar" "" "u1" sample.start
                   {| Op := "stat"; Path := "/tmp/1700000000000000000/main"; Err := EACCES |}
                   _ _ _ _)).
  - vm_compute. discriminate.
  - reflexivity.
  - reflexivity.
  - discriminate.
Defined.

(** The chmod step prints a complaint and ends with status 1. *)
Lemma chmod_failure_stops_the_run_witness :
  commands
    (trace (snd (RunScript sample.K sample.N
                   (sample.host "linux" sample.is_blade ["main"]
                      (fun _ => ("not permitted", Some "exit status 1")))
                   sample.ctx "/tmp/pkg.tar" "" "u1" sample.start)))
  = [CommandContext "/opt/chaosblade/bin/nsexec"
       ["chmod 777 /tmp/1700000000000000000/main"]].
Proof.
  refine (proj2 (proj2 (@chmod_failure_stops_the_run sample.State sample.K sample.N
                          (sample.host "linux" sample.is_blade ["main"]
                             (fun _ => ("not permitted", Some "exit status 1")))
                          sample.ctx "/tmp/pkg.tar" "" "u1" sample.start
                          "not permitted" "exit status 1" _ _ _ _ _))).
  - vm_compute. discriminate.
  - reflexivity.
  - reflexivity.
  - reflexivity.
Defined.

Lemma script_command_description_witness :
  Cmd_String (cmdScript sample.K sample.N (sample.linux ["main"] "" None)
                sample.ctx "/tmp/pkg.tar" "a b" "u1" (host sample.start))
  = "/opt/chaosblade/bin/nsexec -t 1234 -m -n -- /bin/sh -c "
    ++ "script  -t 2>/tmp/u1.time -a /tmp/u1.out  -c  "
    ++ dquote ++ "/tmp/1700000000000000000/main a b" ++ dquote.
Proof.
  etransitivity.
  - refine (@script_command_description sample.State sample.K sample.N
              (sample.linux ["main"] "" None)
              sample.ctx "/tmp/pkg.tar" "a b" "u1" sample.start _ _ _).
    vm_compute. reflexivity.
  - vm_compute. reflexivity.
Defined.

(** An empty pid text. *)
Lemma script_command_arguments_witness :
  Args (cmdScript sample.K sample.N (sample.linux ["main"] "" None)
          [("ns_pid", VString "true"); ("ns_target", VString "")]
          "/tmp/pkg.tar" "" "u1" (host sample.start))
  = ["/opt/chaosblade/bin/nsexec"; "-t"; ""; "-p"; "--"; "/bin/sh"; "-c";
     "script  -t 2>/tmp/u1.time -a /tmp/u1.out  -c  "
     ++ dquote ++ "/tmp/1700000000000000000/main" ++ dquote].
Proof.
  etransitivity.
  - refine (@script_command_arguments sample.State sample.K sample.N
              (sample.linux ["main"] "" None)
              [("ns_pid", VString "true"); ("ns_target", VString "")]
              "/tmp/pkg.tar" "" "u1" sample.start _ _ _ _).
    + vm_compute. reflexivity.
    + reflexivity.
  - vm_compute. reflexivity.
Defined.

Lemma staging_directory_by_clock_witness :
  tarDistDir (sample.linux ["main"] "" None) "/tmp/a.tar"
             {| sample.files := []; sample.clock := 7 |}
  = tarDistDir (sample.linux ["main"] "" None) "/tmp/b.tar"
               {| sample.files := ["/tmp/b.tar"]; sample.clock := 7 |}.
Proof.
  apply (proj2 (@staging_directory_by_clock sample.State
                  (sample.linux ["main"] "" None) "/tmp/a.tar" "/tmp/b.tar"
                  {| sample.files := []; sample.clock := 7 |}
                  {| sample.files := ["/tmp/b.tar"]; sample.clock := 7 |}
                  eq_refl)).
  reflexivity.
Defined.

(** The script prints a payload that decodes to the sentinel code and
    exits with status 0. *)
Lemma sentinel_code_is_not_returned_witness :
  fst (RunScript sample.K sample.N
         (with_decoder
            (fun _ => inr {| Response.Code := 65000; Response.Success := false;
                             Response.Err := "failed"; Response.Result := VNil |})
            (sample.linux ["main"] "{code:65000}" None))
         sample.ctx "/tmp/pkg.tar" "" "u1" sample.start)
  = ReturnSuccess sample.K (VString "{code:65000}").
Proof.
  refine (@sentinel_code_is_not_returned sample.State sample.K sample.N
            (with_decoder
               (fun _ => inr {| Response.Code := 65000; Response.Success := false;
                                Response.Err := "failed"; Response.Result := VNil |})
               (sample.linux ["main"] "{code:65000}" None))
            sample.ctx "/tmp/pkg.tar" "" "u1" sample.start
            _ _ "{code:65000}" None _ _ _ _ _ _).
  - vm_compute. reflexivity.
  - vm_compute. reflexivity.
  - reflexivity.
  - reflexivity.
Defined.

(** A package that is not on the host. *)
Lemma not_blade_is_extracted_unchecked_witness :
  exists rest,
    trace (snd (RunScript sample.K sample.N (sample.linux ["main"] "" None)
                  sample.ctx "/tmp/none.tar" "" "u1" sample.start))
    = ([EvNow;
        EvUnTar "/tmp/none.tar" "/tmp/1700000000000000000";
        EvStat "/tmp/1700000000000000000/main"] ++ rest)%list
    /\ probes rest = [].
Proof.
  apply (@not_blade_is_extracted_unchecked sample.State sample.K sample.N
           (sample.linux ["main"] "" None)
           sample.ctx "/tmp/none.tar" "" "u1" sample.start).
  - vm_compute. discriminate.
  - reflexivity.
Defined.
